(** * The training loop of the annotated transformer (trainer.py)

    A shallow embedding of [Batch], [SimpleLossCompute], [LabelSmoothing],
    [TrainState] and [run_epoch], and the properties of the masks, of the
    smoothed distribution and of the gradient-accumulation counters.

    Conventions.
    - A torch tensor is its shape together with an indexing function that
      is only read inside the shape; [get2]/[get3] are the checked reads.
    - Python exceptions are values of [Exn]; a method that mutates an
      object is a computation in the monad [M] over that object's state,
      and the state survives a raised exception, as it does in Python.
    - Calls to the external collaborators (model, optimizer, scheduler,
      autograd) are recorded, in order, in a trace of [Event]s.
    - Floating-point arithmetic is kept abstract behind the class
      [Scalar]; the exact rationals [Q] and the binary64 floats are
      instances. *)

From Stdlib Require Import String ZArith QArith List Bool Lia.
From Stdlib Require Import Floats.
Import ListNotations.
Close Scope Q_scope.

Set Implicit Arguments.

(** ** Exceptions and the state-and-exception monad *)

Inductive Exn : Set :=
| AssertionError
| ZeroDivisionError
| AttributeError
| IndexError
| RuntimeError.

Inductive result (A : Type) : Type :=
| Ok (a : A)
| Raise (e : Exn).
Arguments Ok {A} a.
Arguments Raise {A} e.

Definition M (St A : Type) : Type := St -> result A * St.

Definition ret {St A} (a : A) : M St A := fun s => (Ok a, s).

Definition bind {St A B} (m : M St A) (k : A -> M St B) : M St B :=
  fun s =>
    match m s with
    | (Ok a, s') => k a s'
    | (Raise e, s') => (Raise e, s')
    end.

Definition raise {St A} (e : Exn) : M St A := fun s => (Raise e, s).
Definition get {St} : M St St := fun s => (Ok s, s).
Definition put {St} (s : St) : M St unit := fun _ => (Ok tt, s).
Definition modify {St} (f : St -> St) : M St unit := fun s => (Ok tt, f s).

(** Lifting of a pure fallible step. *)
Definition lift {St A} (r : result A) : M St A := fun s => (r, s).

Declare Scope monad_scope.
Delimit Scope monad_scope with monad.
Notation "x <- m ;; k" := (bind m (fun x => k))
  (at level 61, m at next level, right associativity) : monad_scope.
Notation "m ;; k" := (bind m (fun _ => k))
  (at level 61, right associativity) : monad_scope.
Notation "' pat <- m ;; k" :=
  (bind m (fun x => match x with pat => k end))
  (at level 61, pat pattern, m at next level, right associativity)
  : monad_scope.

(** Reading an attribute that the constructor may not have set. *)
Definition getattr {St A} (field : option A) : M St A :=
  match field with
  | Some v => ret v
  | None => raise AttributeError
  end.

(** ** Scalars *)

(** The float operations the trainer uses, on Python floats and on the
    elements of float tensors. *)
Class Scalar (F : Type) : Type := {
  f_of_Z : Z -> F;
  fadd : F -> F -> F;
  fsub : F -> F -> F;
  fmul : F -> F -> F;
  fdiv : F -> F -> F
}.

(** Exact rational arithmetic. *)
#[export] Instance Scalar_Q : Scalar Q := {
  f_of_Z := inject_Z;
  fadd := Qplus;
  fsub := Qminus;
  fmul := Qmult;
  fdiv := Qdiv
}.

(** The binary64 float of an integer below 2^63 in absolute value. *)
Definition float_of_Z (z : Z) : float :=
  match z with
  | Z0 => PrimFloat.of_uint63 (Uint63.of_Z 0)
  | Zpos _ => PrimFloat.of_uint63 (Uint63.of_Z z)
  | Zneg _ => PrimFloat.opp (PrimFloat.of_uint63 (Uint63.of_Z (- z)))
  end.

(** IEEE 754 binary64 arithmetic. *)
#[export] Instance Scalar_float : Scalar float := {
  f_of_Z := float_of_Z;
  fadd := PrimFloat.add;
  fsub := PrimFloat.sub;
  fmul := PrimFloat.mul;
  fdiv := PrimFloat.div
}.

(** Signed 64-bit wrap-around of int64 tensors. *)
Definition wrap64 (z : Z) : Z :=
  ((z + 2 ^ 63) mod 2 ^ 64 - 2 ^ 63)%Z.

(** ** Tensors *)

Module Tensor.

Record t1 (A : Type) : Type := mk1 {
  len : nat;
  at1 : nat -> A
}.

Record t2 (A : Type) : Type := mk2 {
  rows : nat;
  cols : nat;
  at2 : nat -> nat -> A
}.

Record t3 (A : Type) : Type := mk3 {
  d0 : nat;
  d1 : nat;
  d2 : nat;
  at3 : nat -> nat -> nat -> A
}.

Definition get1 {A} (x : t1 A) (i : nat) : option A :=
  if i <? len x then Some (at1 x i) else None.

Definition get2 {A} (x : t2 A) (r c : nat) : option A :=
  if (r <? rows x) && (c <? cols x) then Some (at2 x r c) else None.

Definition get3 {A} (x : t3 A) (i j k : nat) : option A :=
  if (i <? d0 x) && (j <? d1 x) && (k <? d2 x)
  then Some (at3 x i j k) else None.

(** Literals: a vector from a list, a matrix from [c]-wide rows. *)
Definition of_list {A} (d : A) (l : list A) : t1 A :=
  mk1 (length l) (fun i => nth i l d).

Definition of_rows {A} (d : A) (c : nat) (l : list (list A)) : t2 A :=
  mk2 (length l) c (fun i j => nth j (nth i l []) d).

(** The entries in row-major order. *)
Definition row {A} (x : t2 A) (r : nat) : list A :=
  map (at2 x r) (seq 0 (cols x)).

Definition entries {A} (x : t2 A) : list A :=
  flat_map (row x) (seq 0 (rows x)).

Definition map2 {A B} (f : A -> B) (x : t2 A) : t2 B :=
  mk2 (rows x) (cols x) (fun r c => f (at2 x r c)).

(** [x[:, :-1]]: the last column dropped (nothing to drop when there
    is no column). *)
Definition drop_last {A} (x : t2 A) : t2 A :=
  mk2 (rows x) (cols x - 1) (at2 x).

(** [x[:, 1:]]: the first column dropped. *)
Definition drop_first {A} (x : t2 A) : t2 A :=
  mk2 (rows x) (cols x - 1) (fun r c => at2 x r (S c)).

(** [x != v] for an integer tensor and a scalar. *)
Definition ne (x : t2 Z) (v : Z) : t2 bool :=
  map2 (fun e => negb (e =? v)%Z) x.

(** [x.unsqueeze(-2)]: [rows, cols] becomes [rows, 1, cols]. *)
Definition unsqueeze_m2 {A} (x : t2 A) : t3 A :=
  mk3 (rows x) 1 (cols x) (fun b _ j => at2 x b j).

(** [x.sum()] of a boolean tensor: true counts 1. The sum is an int64
    whose value is at most the number of entries. *)
Definition sum (x : t2 bool) : Z :=
  fold_left (fun acc (b : bool) => (acc + (if b then 1 else 0))%Z)
            (entries x) 0%Z.

(** Broadcasting of one dimension: equal sizes, or one of them 1. *)
Definition broadcast_dim (m n : nat) : option nat :=
  if m =? n then Some m
  else if m =? 1 then Some n
  else if n =? 1 then Some m
  else None.

(** The index read in an operand along a dimension of size [dim]. *)
Definition bidx (dim i : nat) : nat := if dim =? 1 then 0 else i.

(** [x & y] on boolean tensors, with broadcasting. *)
Definition band (x y : t3 bool) : result (t3 bool) :=
  match broadcast_dim (d0 x) (d0 y),
        broadcast_dim (d1 x) (d1 y),
        broadcast_dim (d2 x) (d2 y) with
  | Some n0, Some n1, Some n2 =>
      Ok (mk3 n0 n1 n2
            (fun i j k =>
               at3 x (bidx (d0 x) i) (bidx (d1 x) j) (bidx (d2 x) k)
               && at3 y (bidx (d0 y) i) (bidx (d1 y) j) (bidx (d2 y) k)))
  | _, _, _ => Raise RuntimeError
  end.

End Tensor.
Import Tensor.

(** Modelled from the spec: [subsequent_mask] of [utils], which is not
    among the sources. A fixed lower-triangular boolean matrix of shape
    [1, L, L], computed independently of data, true where column <= row. *)
Definition subsequent_mask (size : nat) : t3 bool :=
  mk3 1 size size (fun _ i j => j <=? i).

(** ** Batch *)

Module Batch.

Record t : Type := mk {
  src : t2 Z;
  src_mask : t3 bool;
  tgt : option (t2 Z);
  tgt_y : option (t2 Z);
  tgt_mask : option (t3 bool);
  ntokens : option Z
}.

(** The default of [pad]: 2 = <blank>. *)
Definition pad_default : Z := 2.

(** [type_as] of the causal mask to the boolean padding mask leaves it
    as it is. *)
Definition make_std_mask (tgt : t2 Z) (pad : Z) : result (t3 bool) :=
  let tgt_mask := unsqueeze_m2 (ne tgt pad) in
  band tgt_mask (subsequent_mask (cols tgt)).

(** [__init__]: without a target only [src] and [src_mask] are set. *)
Definition init (src : t2 Z) (tgt : option (t2 Z)) (pad : Z) : result t :=
  let src_mask := unsqueeze_m2 (ne src pad) in
  match tgt with
  | Some tgt =>
      let tgt_in := drop_last tgt in
      let tgt_y := drop_first tgt in
      match make_std_mask tgt_in pad with
      | Ok tgt_mask =>
          Ok (mk src src_mask (Some tgt_in) (Some tgt_y) (Some tgt_mask)
                 (Some (sum (ne tgt_y pad))))
      | Raise e => Raise e
      end
  | None => Ok (mk src src_mask None None None None)
  end.

End Batch.

(** ** In-place tensor operations and views used by the losses *)

Module TensorOps.

(** A 0-dim tensor: its value, and whether it is attached to the
    autograd graph. *)
Record t0 (A : Type) : Type := mk0 {
  item : A;
  attached : bool
}.

(** [x.data]: the same value, detached from the graph. *)
Definition data {A} (x : t0 A) : t0 A := mk0 (item x) false.

(** [x.fill_(v)]. *)
Definition fill_ {A} (x : t2 A) (v : A) : t2 A :=
  mk2 (rows x) (cols x) (fun _ _ => v).

(** [x.scatter_(1, index.unsqueeze(1), v)]: row [r] of [x] gets [v] in
    column [index[r]]. The index may not have more rows than [x], and
    its entries are columns of [x] (no negative index). *)
Definition scatter_1 {A} (x : t2 A) (index : t1 Z) (v : A) : result (t2 A) :=
  if (len index <=? rows x)
     && forallb (fun r => (0 <=? at1 index r)%Z
                          && (at1 index r <? Z.of_nat (cols x))%Z)
                (seq 0 (len index))
  then Ok (mk2 (rows x) (cols x)
             (fun r c => if (r <? len index) && (Z.of_nat c =? at1 index r)%Z
                         then v else at2 x r c))
  else Raise RuntimeError.

(** A Python index into a dimension of size [n]: negative indices
    count from the end. *)
Definition norm_index (n : nat) (p : Z) : result nat :=
  if (0 <=? p)%Z && (p <? Z.of_nat n)%Z then Ok (Z.to_nat p)
  else if (- Z.of_nat n <=? p)%Z && (p <? 0)%Z
       then Ok (Z.to_nat (p + Z.of_nat n))
       else Raise IndexError.

(** [x[:, p] = v]. *)
Definition set_col {A} (x : t2 A) (p : Z) (v : A) : result (t2 A) :=
  match norm_index (cols x) p with
  | Ok c0 => Ok (mk2 (rows x) (cols x)
                   (fun r c => if c =? c0 then v else at2 x r c))
  | Raise e => Raise e
  end.

(** [torch.nonzero(target == p).squeeze()]: the positions that hold [p]. *)
Definition nonzero_eq (target : t1 Z) (p : Z) : list nat :=
  filter (fun r => (at1 target r =? p)%Z) (seq 0 (len target)).

(** [x.index_fill_(0, index, v)]: the rows listed in [index] get [v]. *)
Definition index_fill_0 {A} (x : t2 A) (index : list nat) (v : A)
  : result (t2 A) :=
  if forallb (fun r => r <? rows x) index
  then Ok (mk2 (rows x) (cols x)
             (fun r c => if existsb (Nat.eqb r) index then v else at2 x r c))
  else Raise IndexError.

(** [x.contiguous().view(-1, x.size(-1))] of a 3-dim tensor; the free
    dimension cannot be inferred when the last one is empty. *)
Definition view_rows {A} (x : t3 A) : result (t2 A) :=
  if d2 x =? 0 then Raise RuntimeError
  else Ok (mk2 (d0 x * d1 x) (d2 x)
             (fun r c => at3 x (r / d1 x) (r mod d1 x) c)).

(** [y.contiguous().view(-1)] of a 2-dim tensor. *)
Definition view_flat {A} (y : t2 A) : t1 A :=
  mk1 (rows y * cols y) (fun i => at2 y (i / cols y) (i mod cols y)).

End TensorOps.
Import TensorOps.

(** ** SimpleLossCompute *)

Module SimpleLossCompute.
Section Defs.

Context {F : Type} `{Scalar F}.

(** [St] is whatever state the generator and the criterion act on;
    [In] is the type of the raw model output. *)
Variables St In : Type.

Record t : Type := mk {
  generator : In -> M St (t3 F);
  criterion : t2 F -> t1 Z -> M St (t0 F)
}.

(** [t / norm] and [t * norm] by a tensor or number outside the graph. *)
Definition div_norm (x : t0 F) (norm : Z) : t0 F :=
  mk0 (fdiv (item x) (f_of_Z norm)) (attached x).

Definition mul_norm (x : t0 F) (norm : Z) : t0 F :=
  mk0 (fmul (item x) (f_of_Z norm)) (attached x).

Local Open Scope monad_scope.

(** [__call__]. *)
Definition call (self : t) (x : In) (y : t2 Z) (norm : Z)
  : M St (t0 F * t0 F) :=
  x <- generator self x ;;
  x2 <- lift (view_rows x) ;;
  c <- criterion self x2 (view_flat y) ;;
  let sloss := div_norm c norm in
  ret (mul_norm (data sloss) norm, sloss).

End Defs.
End SimpleLossCompute.

(** ** LabelSmoothing *)

Module LabelSmoothing.
Section Defs.

Context {F : Type} `{Scalar F}.

(** [nn.KLDivLoss(reduction="sum")], the criterion every instance
    holds. *)
Variable KLDivLoss : t2 F -> t2 F -> t0 F.

Record t : Type := mk {
  padding_idx : Z;
  confidence : F;
  smoothing : F;
  size : Z;
  true_dist : option (t2 F)
}.

(** [__init__]: the confidence is [1.0 - smoothing], and no distribution
    is held yet. *)
Definition init (size padding_idx : Z) (smoothing : F) : t :=
  mk padding_idx (fsub (f_of_Z 1) smoothing) smoothing size None.

(** The object with its [true_dist] attribute set to [d]. *)
Definition with_true_dist (d : option (t2 F)) (self : t) : t :=
  mk (padding_idx self) (confidence self) (smoothing self) (size self) d.

Definition set_true_dist (d : t2 F) (self : t) : t :=
  with_true_dist (Some d) self.

(** [self.smoothing / (self.size - 2)], a division of Python numbers. *)
Definition uniform_share (self : t) : result F :=
  if (size self - 2 =? 0)%Z then Raise ZeroDivisionError
  else Ok (fdiv (smoothing self) (f_of_Z (size self - 2))).

Local Open Scope monad_scope.

(** [mask] is the result of [nonzero] on a 1-dim tensor, which has two
    dimensions whatever it holds. *)
Definition mask_dim : nat := 2.

(** [forward], on the object as state: the distribution is built from a
    copy of [x] by the in-place operations, stored in the object, and
    scored against [x] by the criterion. *)
Definition forward (x : t2 F) (target : t1 Z) : M t (t0 F) :=
  self <- get ;;
  if negb (Z.of_nat (cols x) =? size self)%Z then raise AssertionError
  else
    share <- lift (uniform_share self) ;;
    let true_dist := fill_ x share in
    true_dist <- lift (scatter_1 true_dist target (confidence self)) ;;
    true_dist <- lift (set_col true_dist (padding_idx self) (f_of_Z 0)) ;;
    let mask := nonzero_eq target (padding_idx self) in
    true_dist <- (if 0 <? mask_dim
                  then lift (index_fill_0 true_dist mask (f_of_Z 0))
                  else ret true_dist) ;;
    modify (set_true_dist true_dist) ;;
    ret (KLDivLoss x true_dist).

End Defs.
End LabelSmoothing.

(** ** TrainState *)

(** A Python number that is either an int or a 0-dim tensor. *)
Inductive pynum (A : Type) : Type :=
| PyInt (z : Z)
| Tensor0 (a : A).
Arguments PyInt {A} z.
Arguments Tensor0 {A} a.

(** [a += n] for an int64 tensor [n]: the sum is an int64 tensor. *)
Definition iadd_int (a : pynum Z) (n : Z) : pynum Z :=
  match a with
  | PyInt z => Tensor0 (wrap64 (z + n))
  | Tensor0 t => Tensor0 (wrap64 (t + n))
  end.

Module TrainState.

Record t : Type := mk {
  step : Z;
  accum_step : Z;
  samples : Z;
  tokens : pynum Z
}.

(** The four counters are class attributes that start at the int 0. *)
Definition init : t := mk 0 0 0 (PyInt 0).

End TrainState.

(** ** run_epoch *)

(** The calls that leave [run_epoch], in the order they are made. The
    progress report is recorded with the batch index and the number of
    parameter updates it prints. *)
Inductive Event : Set :=
| model_forward_call
| loss_compute_call
| loss_node_backward
| optimizer_step
| optimizer_zero_grad
| scheduler_step
| print (i n_accum : Z).

Definition Event_eq_dec (a b : Event) : {a = b} + {a <> b}.
Proof. repeat decide equality. Defined.

(** The number of calls [e] in a trace. *)
Definition calls (e : Event) (tr : list Event) : nat :=
  count_occ Event_eq_dec tr e.

(** What [run_epoch] acts on: the [TrainState] object it was given and
    the trace of the external calls. *)
Record World : Type := mkWorld {
  train_state : TrainState.t;
  trace : list Event
}.

Definition emit (e : Event) : M World unit :=
  modify (fun w => mkWorld (train_state w) (trace w ++ [e])).

Definition update_train_state (f : TrainState.t -> TrainState.t)
  : M World unit :=
  modify (fun w => mkWorld (f (train_state w)) (trace w)).

(** [i % k] of Python ints. *)
Definition pymod {St} (i k : Z) : M St Z :=
  if (k =? 0)%Z then raise ZeroDivisionError else ret (i mod k)%Z.

Section RunEpoch.

Context {F : Type} `{Scalar F}.

(** The model and the loss computation are external: [Out] is what
    [model.forward] returns, and [loss_compute] gives the pair of the
    display loss and the loss node. *)
Variable Out : Type.
Variable model_forward : t2 Z -> t2 Z -> t3 bool -> t3 bool -> Out.
Variable loss_compute : Out -> t2 Z -> Z -> t0 F * t0 F.

Record Locals : Type := mkLocals {
  total_tokens : pynum Z;
  total_loss : pynum F;
  tokens : pynum Z;
  n_accum : Z
}.

Definition locals_init : Locals :=
  mkLocals (PyInt 0) (PyInt 0) (PyInt 0) 0.

(** [a += loss] for a float tensor [loss]. *)
Definition iadd_float (a : pynum F) (loss : F) : pynum F :=
  match a with
  | PyInt z => Tensor0 (fadd (f_of_Z z) loss)
  | Tensor0 t => Tensor0 (fadd t loss)
  end.

(** [total_loss / total_tokens]: only the division of two Python ints
    raises on a zero divisor; a tensor division returns inf or nan. *)
Definition truediv (a : pynum F) (b : pynum Z) : result F :=
  match a, b with
  | PyInt x, PyInt y =>
      if (y =? 0)%Z then Raise ZeroDivisionError
      else Ok (fdiv (f_of_Z x) (f_of_Z y))
  | PyInt x, Tensor0 n => Ok (fdiv (f_of_Z x) (f_of_Z n))
  | Tensor0 l, PyInt y => Ok (fdiv l (f_of_Z y))
  | Tensor0 l, Tensor0 n => Ok (fdiv l (f_of_Z n))
  end.

Definition is_train (mode : string) : bool :=
  (mode =? "train")%string || (mode =? "train+log")%string.

Local Open Scope monad_scope.
Local Open Scope Z_scope.

(** The training branch of the loop body; it gives the new value of
    [n_accum]. *)
Definition train_branch (accum_iter i : Z) (batch : Batch.t)
           (ntokens : Z) (n_accum : Z) : M World Z :=
  emit loss_node_backward ;;
  update_train_state (fun ts =>
    TrainState.mk (TrainState.step ts + 1) (TrainState.accum_step ts)
                  (TrainState.samples ts) (TrainState.tokens ts)) ;;
  update_train_state (fun ts =>
    TrainState.mk (TrainState.step ts) (TrainState.accum_step ts)
                  (TrainState.samples ts
                   + Z.of_nat (rows (Batch.src batch)))
                  (TrainState.tokens ts)) ;;
  update_train_state (fun ts =>
    TrainState.mk (TrainState.step ts) (TrainState.accum_step ts)
                  (TrainState.samples ts)
                  (iadd_int (TrainState.tokens ts) ntokens)) ;;
  r <- pymod i accum_iter ;;
  n_accum <- (if r =? 0 then
                emit optimizer_step ;;
                emit optimizer_zero_grad ;;
                update_train_state (fun ts =>
                  TrainState.mk (TrainState.step ts)
                                (TrainState.accum_step ts + 1)
                                (TrainState.samples ts)
                                (TrainState.tokens ts)) ;;
                ret (n_accum + 1)
              else ret n_accum) ;;
  emit scheduler_step ;;
  ret n_accum.

(** The body of the loop for the batch of index [i]. The external calls
    are taken to return; a batch without target fields fails at the
    attribute it lacks. *)
Definition loop_body (mode : string) (accum_iter : Z) (i : Z)
           (batch : Batch.t) (l : Locals) : M World Locals :=
  tgt <- getattr (Batch.tgt batch) ;;
  tgt_mask <- getattr (Batch.tgt_mask batch) ;;
  emit model_forward_call ;;
  let out :=
    model_forward (Batch.src batch) tgt (Batch.src_mask batch) tgt_mask in
  tgt_y <- getattr (Batch.tgt_y batch) ;;
  ntokens <- getattr (Batch.ntokens batch) ;;
  emit loss_compute_call ;;
  let (loss, loss_node) := loss_compute out tgt_y ntokens in
  n_accum <- (if is_train mode
              then train_branch accum_iter i batch ntokens (n_accum l)
              else ret (n_accum l)) ;;
  let total_loss := iadd_float (total_loss l) (item loss) in
  let total_tokens := iadd_int (total_tokens l) ntokens in
  let tokens := iadd_int (tokens l) ntokens in
  tokens <- (if (i mod 40 =? 1) && is_train mode
             then emit (print i n_accum) ;; ret (PyInt 0)
             else ret tokens) ;;
  ret (mkLocals total_tokens total_loss tokens n_accum).

(** [for i, batch in enumerate(data_iter)], from index [i] on. *)
Fixpoint for_each (mode : string) (accum_iter : Z) (i : Z)
         (data_iter : list Batch.t) (l : Locals) : M World Locals :=
  match data_iter with
  | [] => ret l
  | batch :: rest =>
      l' <- loop_body mode accum_iter i batch l ;;
      for_each mode accum_iter (i + 1) rest l'
  end.

(** The mean loss is returned with the [TrainState] object that was
    passed in. *)
Definition run_epoch (data_iter : list Batch.t) (mode : string)
           (accum_iter : Z) : M World (F * TrainState.t) :=
  l <- for_each mode accum_iter 0 data_iter locals_init ;;
  mean <- lift (truediv (total_loss l) (total_tokens l)) ;;
  w <- get ;;
  ret (mean, train_state w).

End RunEpoch.

(** ** Notions the properties are stated with *)

(** A batch that was built with a target has the four target fields. *)
Definition has_target (b : Batch.t) : bool :=
  match Batch.tgt b, Batch.tgt_y b, Batch.tgt_mask b, Batch.ntokens b with
  | Some _, Some _, Some _, Some _ => true
  | _, _, _, _ => false
  end.

(** The number of entries of [x] that differ from [pad]. *)
Definition nonpad_count (x : t2 Z) (pad : Z) : nat :=
  length (filter (fun e => negb (e =? pad)%Z) (entries x)).

(** The positions [1 .. L-1] of every sentence of a target of [L]
    positions, read from the target itself, sentence by sentence. *)
Definition after_first (tgt : t2 Z) : list Z :=
  flat_map (fun b => map (at2 tgt b) (seq 1 (cols tgt - 1)))
           (seq 0 (rows tgt)).

(** The number of those positions that do not hold [pad]. *)
Definition nonpad_after_first (tgt : t2 Z) (pad : Z) : nat :=
  length (filter (fun e => negb (e =? pad)%Z) (after_first tgt)).

(** The batch indices below [n] at which the parameters are updated. *)
Definition update_indices (k : Z) (n : nat) : list Z :=
  filter (fun i => (i mod k =? 0)%Z) (map Z.of_nat (seq 0 n)).

(** The number of indices among [i, i+1, ..., i+n-1] that [k] divides. *)
Fixpoint updates_from (k i : Z) (n : nat) : nat :=
  match n with
  | O => 0
  | S n' => (if (i mod k =? 0)%Z then 1 else 0) + updates_from k (i + 1) n'
  end.

(** The sum of the batch sizes. *)
Definition total_batch_size (bs : list Batch.t) : Z :=
  fold_right (fun b acc => (Z.of_nat (rows (Batch.src b)) + acc)%Z) 0%Z bs.

(** Whether a running total has become a tensor. *)
Definition is_tensor {A : Type} (p : pynum A) : bool :=
  match p with
  | PyInt _ => false
  | Tensor0 _ => true
  end.

(** What a training pass over the batches [bs], numbered from [i] on
    and with the accumulation interval [k], adds to the counters and to
    the calls made so far. *)
Definition train_progress (k i : Z) (bs : list Batch.t) (w w' : World)
  : Prop :=
  let n := length bs in
  let u := updates_from k i n in
  TrainState.step (train_state w')
  = (TrainState.step (train_state w) + Z.of_nat n)%Z
  /\ TrainState.accum_step (train_state w')
     = (TrainState.accum_step (train_state w) + Z.of_nat u)%Z
  /\ TrainState.samples (train_state w')
     = (TrainState.samples (train_state w) + total_batch_size bs)%Z
  /\ calls loss_node_backward (trace w')
     = calls loss_node_backward (trace w) + n
  /\ calls optimizer_step (trace w') = calls optimizer_step (trace w) + u
  /\ calls optimizer_zero_grad (trace w')
     = calls optimizer_zero_grad (trace w) + u
  /\ calls scheduler_step (trace w') = calls scheduler_step (trace w) + n.

(** The events of an evaluation pass: calls of the model and of the loss
    computation only. *)
Definition eval_event (e : Event) : bool :=
  match e with
  | model_forward_call | loss_compute_call => true
  | _ => false
  end.

(** The sum of a list of rationals. *)
Definition qsum (l : list Q) : Q := fold_right Qplus (0 # 1)%Q l.

(** The progress reports in a trace. *)
Definition is_report (e : Event) : bool :=
  match e with
  | print _ _ => true
  | _ => false
  end.

Definition reports (tr : list Event) : nat := length (filter is_report tr).

(** The batch indices below [n] at which progress is reported. *)
Definition report_indices (n : nat) : list Z :=
  filter (fun i => (i mod 40 =? 1)%Z) (map Z.of_nat (seq 0 n)).

(** The number of indices among [i, i+1, ..., i+n-1] that are 1 modulo
    40. *)
Fixpoint reports_from (i : Z) (n : nat) : nat :=
  match n with
  | O => 0
  | S n' => (if (i mod 40 =? 1)%Z then 1 else 0) + reports_from (i + 1) n'
  end.

(** The counters [step], [accum_step] and [samples] of [w'] are not
    below those of [w], and [accum_step] has grown no more than [step]. *)
Definition counters_le (w w' : World) : Prop :=
  (TrainState.step (train_state w) <= TrainState.step (train_state w'))%Z
  /\ (TrainState.accum_step (train_state w)
      <= TrainState.accum_step (train_state w'))%Z
  /\ (TrainState.samples (train_state w)
      <= TrainState.samples (train_state w'))%Z
  /\ (TrainState.accum_step (train_state w')
      - TrainState.accum_step (train_state w)
      <= TrainState.step (train_state w')
         - TrainState.step (train_state w))%Z.

(** Every [optimizer.step] in the list comes right after a backward pass
    and right before [optimizer.zero_grad]. *)
Definition step_discipline (evs : list Event) : Prop :=
  forall pre post,
    evs = pre ++ optimizer_step :: post ->
    (exists pre', pre = pre' ++ [loss_node_backward])
    /\ (exists post', post = optimizer_zero_grad :: post').

(** A scan that decides the discipline above: [after_backward] tells
    whether the event just before the list is a backward pass. *)
Fixpoint check_steps (after_backward : bool) (evs : list Event) : bool :=
  match evs with
  | [] => true
  | optimizer_step :: rest =>
      after_backward
      && match rest with
         | optimizer_zero_grad :: _ => true
         | _ => false
         end
      && check_steps false rest
  | loss_node_backward :: rest => check_steps true rest
  | _ :: rest => check_steps false rest
  end.

(** ** Example data *)

(** Two sentences of source length 3 and target length 4, padded with
    the blank id 2. *)
Definition ex_src : t2 Z := of_rows 0%Z 3 [[1; 3; 4]; [5; 6; 2]]%Z.
Definition ex_tgt : t2 Z := of_rows 0%Z 4 [[1; 3; 4; 5]; [1; 6; 2; 2]]%Z.

(** The same without any padding. *)
Definition ex_tgt_full : t2 Z :=
  of_rows 0%Z 4 [[1; 3; 4; 5]; [1; 6; 7; 8]]%Z.

(** A one-row score matrix over five classes, and a stand-in for the
    divergence, whose value none of the properties below depends on. *)
Definition ex_x : t2 Q := of_rows (0#1)%Q 5 [[0#1; 0#1; 0#1; 0#1; 0#1]%Q].
Definition ex_KLDivLoss (x d : t2 Q) : t0 Q := mk0 (0#1)%Q true.

(** A loss computation over the rationals and one over the floats: the
    generator gives one row of five scores for one position, and the
    criterion is a stand-in of fixed value, attached to the graph. The
    state they act on counts the calls of the criterion. *)
Definition ex_y : t2 Z := of_rows 0%Z 1 [[2%Z]].

Definition ex_generator {F : Type} `{Scalar F} (x : unit) : M nat (t3 F) :=
  ret (mk3 1 1 5 (fun _ _ _ => f_of_Z 0)).

Definition ex_criterion {F : Type} `{Scalar F} (v : Z)
           (x : t2 F) (target : t1 Z) : M nat (t0 F) :=
  fun calls => (Ok (mk0 (f_of_Z v) true), S calls).

Definition ex_loss_Q : SimpleLossCompute.t nat unit :=
  SimpleLossCompute.mk (F := Q) ex_generator (ex_criterion 3).

Definition ex_loss_float : SimpleLossCompute.t nat unit :=
  SimpleLossCompute.mk (F := float) ex_generator (ex_criterion 1).

(** A synthetic batch of two sentences, a model whose output carries no
    information, and a loss computation that reports the token count as
    its display loss. *)
Definition ex_batch : Batch.t :=
  match Batch.init ex_src (Some ex_tgt) Batch.pad_default with
  | Ok b => b
  | Raise _ => Batch.mk ex_src (unsqueeze_m2 (ne ex_src 2)) None None None None
  end.

Definition ex_batches : list Batch.t := repeat ex_batch 5.

Definition ex_model (src tgt : t2 Z) (src_mask tgt_mask : t3 bool) : unit :=
  tt.

Definition ex_loss_compute (out : unit) (y : t2 Z) (norm : Z)
  : t0 Q * t0 Q :=
  (mk0 (inject_Z norm) false, mk0 (1 # 1)%Q true).

Definition ex_world : World := mkWorld TrainState.init [].

(** ** Properties of the tensor operations *)

Lemma entries_map2 {A B} (f : A -> B) (x : t2 A) :
  entries (map2 f x) = map f (entries x).
Proof.
  unfold entries, row; simpl.
  induction (seq 0 (rows x)) as [|r rs IH]; simpl.
  - reflexivity.
  - rewrite map_app, IH, map_map. reflexivity.
Qed.

Lemma length_entries {A} (x : t2 A) :
  length (entries x) = rows x * cols x.
Proof.
  unfold entries, row.
  assert (G : forall l, length (flat_map
              (fun r => map (at2 x r) (seq 0 (cols x))) l)
            = length l * cols x).
  { induction l as [|r rs IH]; simpl.
    - reflexivity.
    - rewrite length_app, length_map, length_seq, IH. reflexivity. }
  rewrite G, length_seq. reflexivity.
Qed.

Lemma in_entries {A} (x : t2 A) (v : A) :
  In v (entries x) ->
  exists r c, r < rows x /\ c < cols x /\ v = at2 x r c.
Proof.
  unfold entries, row. intros Hin.
  apply in_flat_map in Hin. destruct Hin as (r & Hr & Hv).
  apply in_map_iff in Hv. destruct Hv as (c & Hc & Hcin).
  apply in_seq in Hr. apply in_seq in Hcin.
  exists r, c. repeat split; try lia. now symmetry.
Qed.

Lemma sum_fold (l : list bool) (acc : Z) :
  fold_left (fun a (b : bool) => (a + (if b then 1 else 0))%Z) l acc
  = (acc + Z.of_nat (length (filter (fun b => b) l)))%Z.
Proof.
  revert acc. induction l as [|b l IH]; intros acc; simpl.
  - lia.
  - rewrite IH. destruct b; simpl; lia.
Qed.

Lemma filter_map_length {A} (f : A -> bool) (l : list A) :
  length (filter (fun b : bool => b) (map f l)) = length (filter f l).
Proof.
  induction l as [|a l IH]; simpl.
  - reflexivity.
  - destruct (f a); simpl; rewrite IH; reflexivity.
Qed.

Lemma sum_ne_count (x : t2 Z) (pad : Z) :
  sum (ne x pad) = Z.of_nat (nonpad_count x pad).
Proof.
  unfold sum, ne, nonpad_count.
  rewrite entries_map2, sum_fold, filter_map_length. lia.
Qed.

Lemma filter_all {A} (f : A -> bool) (l : list A) :
  (forall a, In a l -> f a = true) -> filter f l = l.
Proof.
  induction l as [|a l IH]; simpl; intros Hall.
  - reflexivity.
  - rewrite (Hall a (or_introl eq_refl)), IH; auto.
Qed.

Lemma nonpad_count_full (x : t2 Z) (pad : Z) :
  (forall r c, r < rows x -> c < cols x -> at2 x r c <> pad) ->
  nonpad_count x pad = rows x * cols x.
Proof.
  intros Hall. unfold nonpad_count.
  rewrite filter_all, length_entries; [reflexivity|].
  intros v Hin. apply in_entries in Hin.
  destruct Hin as (r & c & Hr & Hc & ->).
  apply negb_true_iff, Z.eqb_neq. auto.
Qed.

Lemma broadcast_dim_same (n : nat) : broadcast_dim n n = Some n.
Proof. unfold broadcast_dim. now rewrite Nat.eqb_refl. Qed.

Lemma broadcast_dim_1_l (n : nat) : broadcast_dim 1 n = Some n.
Proof.
  unfold broadcast_dim. destruct (1 =? n) eqn:E; [|reflexivity].
  apply Nat.eqb_eq in E. now subst.
Qed.

Lemma broadcast_dim_1_r (n : nat) : broadcast_dim n 1 = Some n.
Proof.
  unfold broadcast_dim. destruct (n =? 1) eqn:E; reflexivity.
Qed.

Lemma bidx_lt (d i : nat) : i < d -> bidx d i = i.
Proof.
  unfold bidx. intros Hlt. destruct (d =? 1) eqn:E; [|reflexivity].
  apply Nat.eqb_eq in E. lia.
Qed.

(** The broadcast of the padding mask against the causal mask never
    fails, and reads both operands as the shapes say. *)
Lemma make_std_mask_ok (tgt : t2 Z) (pad : Z) :
  exists m,
    Batch.make_std_mask tgt pad = Ok m
    /\ d0 m = rows tgt /\ d1 m = cols tgt /\ d2 m = cols tgt
    /\ forall b i j,
        b < rows tgt -> i < cols tgt -> j < cols tgt ->
        at3 m b i j = negb (at2 tgt b j =? pad)%Z && (j <=? i).
Proof.
  unfold Batch.make_std_mask, band.
  cbn [d0 d1 d2 unsqueeze_m2 subsequent_mask ne map2 rows cols].
  rewrite broadcast_dim_1_r, broadcast_dim_1_l, broadcast_dim_same.
  eexists. split; [reflexivity|].
  cbn [d0 d1 d2 at3 at2]. repeat split.
  intros b i j Hb Hi Hj.
  rewrite !(bidx_lt Hb), !(bidx_lt Hi), !(bidx_lt Hj). reflexivity.
Qed.

(** ** Batch: the target mask and the token count *)

(** C1. A batch built from a target always exists; its [tgt] is the
    target without its last position, its [tgt_mask] has the shape
    [batch, L, L] for the length [L] of [tgt], and at every valid index
    [b, i, j] the mask is true exactly when [j <= i] and [tgt[b, j]] is
    not the padding id. *)
Theorem tgt_mask_causal_and_padding (src tgt : t2 Z) (pad : Z) :
  exists batch t m,
    Batch.init src (Some tgt) pad = Ok batch
    /\ Batch.tgt batch = Some t
    /\ Batch.tgt_mask batch = Some m
    /\ t = drop_last tgt
    /\ (d0 m, d1 m, d2 m) = (rows t, cols t, cols t)
    /\ forall b i j,
        b < d0 m -> i < d1 m -> j < d2 m ->
        exists v, get3 m b i j = Some v
                  /\ (v = true <-> j <= i /\ at2 t b j <> pad).
Proof.
  unfold Batch.init.
  destruct (make_std_mask_ok (drop_last tgt) pad)
    as (m & Hm & H0 & H1 & H2 & Hat).
  rewrite Hm. exists (Batch.mk src (unsqueeze_m2 (ne src pad))
                        (Some (drop_last tgt)) (Some (drop_first tgt))
                        (Some m) (Some (sum (ne (drop_first tgt) pad)))).
  exists (drop_last tgt), m. cbn [Batch.tgt Batch.tgt_mask].
  repeat split; try congruence.
  intros b i j Hb Hi Hj. unfold get3.
  destruct (Nat.ltb_spec b (d0 m)); [|lia].
  destruct (Nat.ltb_spec i (d1 m)); [|lia].
  destruct (Nat.ltb_spec j (d2 m)); [|lia].
  cbn [andb]. eexists; split; [reflexivity|].
  rewrite Hat by lia.
  rewrite andb_true_iff, negb_true_iff, Z.eqb_neq, Nat.leb_le. tauto.
Qed.

(** The entries of [tgt[:, 1:]] are the positions after the first of
    the target. *)
Lemma entries_drop_first (tgt : t2 Z) :
  entries (drop_first tgt) = after_first tgt.
Proof.
  unfold entries, row, after_first. cbn [drop_first rows cols at2].
  apply flat_map_ext. intros b.
  rewrite <- seq_shift, map_map. reflexivity.
Qed.

(** C8. A batch built from a target of [L] positions holds as [tgt_y]
    the target with its first position dropped: [L - 1] positions per
    sentence, with [tgt_y[b, j]] the position [j + 1] of the target. Its
    [ntokens] is the number of entries of [tgt_y] that differ from the
    padding id, that is the number of positions [1 .. L-1] of the target
    that do; when the target has at least one position and none of these
    positions holds the padding id, it is [batch_size * (tgt_len - 1)]. *)
Theorem ntokens_counts_nonpad (src tgt : t2 Z) (pad : Z) :
  exists batch ty n,
    Batch.init src (Some tgt) pad = Ok batch
    /\ Batch.tgt_y batch = Some ty
    /\ Batch.ntokens batch = Some n
    /\ (rows ty, cols ty) = (rows tgt, cols tgt - 1)
    /\ (forall b j,
           b < rows tgt -> j < cols tgt - 1 ->
           get2 ty b j = Some (at2 tgt b (S j)))
    /\ n = Z.of_nat (nonpad_count ty pad)
    /\ n = Z.of_nat (nonpad_after_first tgt pad)
    /\ (1 <= cols tgt ->
        (forall b j, b < rows tgt -> 1 <= j < cols tgt ->
                     at2 tgt b j <> pad) ->
        n = (Z.of_nat (rows tgt) * (Z.of_nat (cols tgt) - 1))%Z).
Proof.
  unfold Batch.init.
  destruct (make_std_mask_ok (drop_last tgt) pad) as (m & Hm & _).
  rewrite Hm. eexists. exists (drop_first tgt). eexists.
  cbn [Batch.tgt_y Batch.ntokens].
  split; [reflexivity|]. split; [reflexivity|]. split; [reflexivity|].
  split; [reflexivity|]. split.
  { intros b j Hb Hj. unfold get2. cbn [drop_first rows cols at2].
    destruct (Nat.ltb_spec b (rows tgt)); [|lia].
    destruct (Nat.ltb_spec j (cols tgt - 1)); [|lia].
    reflexivity. }
  split; [apply sum_ne_count|]. split.
  { rewrite sum_ne_count. unfold nonpad_count, nonpad_after_first.
    rewrite entries_drop_first. reflexivity. }
  intros HL Hall. rewrite sum_ne_count, nonpad_count_full.
  - cbn [drop_first rows cols]. nia.
  - cbn [drop_first rows cols at2]. intros r c Hr Hc.
    apply Hall; lia.
Qed.

Lemma tgt_mask_causal_and_padding_witness :
  exists batch t m,
    Batch.init ex_src (Some ex_tgt) 2 = Ok batch
    /\ Batch.tgt batch = Some t
    /\ Batch.tgt_mask batch = Some m
    /\ exists v, get3 m 1 2 1 = Some v
                 /\ (v = true <-> 1 <= 2 /\ at2 t 1 1 <> 2%Z).
Proof.
  destruct (tgt_mask_causal_and_padding ex_src ex_tgt 2)
    as (batch & t & m & Hi & Ht & Hm & Hd & Hs & Hat).
  exists batch, t, m. repeat split; try assumption.
  injection Hs as H0 H1 H2. subst t.
  apply Hat; rewrite ?H0, ?H1, ?H2; cbn; lia.
Defined.

Lemma ntokens_counts_nonpad_witness :
  (exists batch ty,
      Batch.init ex_src (Some ex_tgt) 2 = Ok batch
      /\ Batch.tgt_y batch = Some ty
      /\ get2 ty 1 1 = Some 2%Z
      /\ Batch.ntokens batch = Some 4%Z)
  /\ (exists batch,
         Batch.init ex_src (Some ex_tgt_full) 2 = Ok batch
         /\ Batch.ntokens batch = Some (2 * (4 - 1))%Z).
Proof.
  split.
  - destruct (ntokens_counts_nonpad ex_src ex_tgt 2)
      as (batch & ty & n & Hi & Hy & Hn & _ & Hat & _ & Hcount & _).
    exists batch, ty. split; [exact Hi|]. split; [exact Hy|].
    split; [apply (Hat 1 1); cbn; lia|].
    rewrite Hn, Hcount. reflexivity.
  - destruct (ntokens_counts_nonpad ex_src ex_tgt_full 2)
      as (batch & ty & n & Hi & Hy & Hn & _ & _ & _ & _ & Hfull).
    exists batch. split; [exact Hi|].
    rewrite Hn. f_equal. apply Hfull.
    + cbn. lia.
    + cbn [rows cols ex_tgt_full of_rows length at2].
      intros b j Hb Hj.
      destruct b as [|[|b]]; [| |lia];
        (destruct j as [|[|[|[|j]]]]; [lia| | | |lia]); cbn; discriminate.
Defined.

(** ** LabelSmoothing: the constructed distribution *)

Lemma existsb_nonzero_eq (target : t1 Z) (p : Z) (r : nat) :
  r < len target ->
  existsb (Nat.eqb r) (nonzero_eq target p) = (at1 target r =? p)%Z.
Proof.
  intros Hr. unfold nonzero_eq.
  destruct (at1 target r =? p)%Z eqn:E.
  - apply existsb_exists. exists r. split; [|apply Nat.eqb_refl].
    apply filter_In. split; [apply in_seq; lia | exact E].
  - apply not_true_is_false. intros Hex.
    apply existsb_exists in Hex. destruct Hex as (r' & Hin & Heq).
    apply Nat.eqb_eq in Heq. subst r'.
    apply filter_In in Hin. destruct Hin as [_ Hin]. congruence.
Qed.

Lemma nonzero_eq_in_range (target : t1 Z) (p : Z) (n : nat) :
  len target <= n ->
  forallb (fun r => r <? n) (nonzero_eq target p) = true.
Proof.
  intros Hle. apply forallb_forall. intros r Hin.
  apply filter_In in Hin. destruct Hin as [Hin _].
  apply in_seq in Hin. apply Nat.ltb_lt. lia.
Qed.

Section LabelSmoothingFacts.

Context {F : Type} `{Scalar F}.
Variable KLDivLoss : t2 F -> t2 F -> t0 F.

Local Open Scope Z_scope.

(** What [forward] builds, entry by entry, when the target holds class
    ids and the padding id is a class. *)
Lemma forward_true_dist (self : LabelSmoothing.t) (x : t2 F) (target : t1 Z) :
  Z.of_nat (cols x) = LabelSmoothing.size self ->
  LabelSmoothing.size self <> 2 ->
  len target = rows x ->
  (forall r, (r < len target)%nat ->
             0 <= at1 target r < LabelSmoothing.size self) ->
  0 <= LabelSmoothing.padding_idx self < LabelSmoothing.size self ->
  exists td,
    LabelSmoothing.forward KLDivLoss x target self
    = (Ok (KLDivLoss x td), LabelSmoothing.set_true_dist td self)
    /\ rows td = rows x /\ cols td = cols x
    /\ forall r c, (r < rows td)%nat -> (c < cols td)%nat ->
        at2 td r c =
          if at1 target r =? LabelSmoothing.padding_idx self then f_of_Z 0
          else if Z.of_nat c =? LabelSmoothing.padding_idx self then f_of_Z 0
          else if Z.of_nat c =? at1 target r
               then LabelSmoothing.confidence self
               else fdiv (LabelSmoothing.smoothing self)
                         (f_of_Z (LabelSmoothing.size self - 2)).
Proof.
  intros Hcols Hsize Hlen Htarget Hpad.
  unfold LabelSmoothing.forward, bind, get, lift, modify, ret.
  rewrite (proj2 (Z.eqb_eq _ _) Hcols). cbn [negb].
  unfold LabelSmoothing.uniform_share.
  destruct (Z.eqb_spec (LabelSmoothing.size self - 2) 0) as [E|_]; [lia|].
  unfold scatter_1. cbn [rows cols fill_].
  assert (Hscatter :
    ((len target <=? rows x)%nat
     && forallb (fun r => (0 <=? at1 target r)
                          && (at1 target r <? Z.of_nat (cols x)))
                (seq 0 (len target))) = true).
  { apply andb_true_iff. split; [apply Nat.leb_le; lia|].
    apply forallb_forall. intros r Hin. apply in_seq in Hin.
    specialize (Htarget r ltac:(lia)).
    apply andb_true_iff. split; [apply Z.leb_le | apply Z.ltb_lt]; lia. }
  rewrite Hscatter.
  unfold set_col, norm_index. cbn [rows cols].
  assert (Hnorm :
    ((0 <=? LabelSmoothing.padding_idx self)
     && (LabelSmoothing.padding_idx self <? Z.of_nat (cols x))) = true).
  { apply andb_true_iff. split; [apply Z.leb_le | apply Z.ltb_lt]; lia. }
  rewrite Hnorm.
  change (0 <? LabelSmoothing.mask_dim)%nat with true. cbv iota.
  unfold index_fill_0. cbn [rows cols].
  rewrite nonzero_eq_in_range by lia.
  eexists. split; [reflexivity|]. cbn [rows cols at2].
  split; [reflexivity|]. split; [reflexivity|].
  intros r c Hr Hc.
  rewrite existsb_nonzero_eq by lia.
  destruct (at1 target r =? LabelSmoothing.padding_idx self); [reflexivity|].
  replace (c =? Z.to_nat (LabelSmoothing.padding_idx self))%nat
    with (Z.of_nat c =? LabelSmoothing.padding_idx self).
  2:{ destruct (Z.eqb_spec (Z.of_nat c) (LabelSmoothing.padding_idx self));
      destruct (Nat.eqb_spec c (Z.to_nat (LabelSmoothing.padding_idx self)));
      try reflexivity; lia. }
  destruct (Z.of_nat c =? LabelSmoothing.padding_idx self); [reflexivity|].
  destruct (Nat.ltb_spec r (len target)); [|lia].
  reflexivity.
Qed.

(** Whatever [forward] does, it either returns the divergence from the
    distribution it has just stored in the object, or raises and leaves
    the object as it was. *)
Lemma forward_cases (self : LabelSmoothing.t) (x : t2 F) (target : t1 Z) :
  match LabelSmoothing.forward KLDivLoss x target self with
  | (Ok v, self') =>
      exists td, self' = LabelSmoothing.set_true_dist td self
                 /\ v = KLDivLoss x td
  | (Raise e, self') =>
      self' = self
      /\ (e = AssertionError <->
          Z.of_nat (cols x) <> LabelSmoothing.size self)
  end.
Proof.
  unfold LabelSmoothing.forward, bind, get, lift, modify, ret, raise.
  destruct (Z.eqb_spec (Z.of_nat (cols x)) (LabelSmoothing.size self))
    as [E|E]; cbn [negb].
  2:{ split; [reflexivity|]. tauto. }
  destruct (LabelSmoothing.uniform_share self) as [share|e] eqn:Es.
  2:{ split; [reflexivity|].
      unfold LabelSmoothing.uniform_share in Es.
      destruct (LabelSmoothing.size self - 2 =? 0); inversion Es.
      split; [discriminate | tauto]. }
  destruct (scatter_1 _ _ _) as [d1|e] eqn:E1.
  2:{ split; [reflexivity|]. unfold scatter_1 in E1.
      destruct (_ && _) in E1; inversion E1. split; [discriminate|tauto]. }
  destruct (set_col _ _ _) as [d2|e] eqn:E2.
  2:{ split; [reflexivity|]. unfold set_col, norm_index in E2.
      destruct (_ && _) in E2; [discriminate|].
      destruct (_ && _) in E2; inversion E2. split; [discriminate|tauto]. }
  change (0 <? LabelSmoothing.mask_dim)%nat with true. cbv iota.
  destruct (index_fill_0 _ _ _) as [d3|e] eqn:E3.
  2:{ split; [reflexivity|]. unfold index_fill_0 in E3.
      destruct (forallb _ _) in E3; inversion E3.
      split; [discriminate|tauto]. }
  eexists. split; reflexivity.
Qed.

End LabelSmoothingFacts.

(** C2. For an object built by the constructor, a score matrix [x] of
    [size] columns with [size >= 3], a target of one class id per row and
    a padding id that is a class, [forward] returns, and the distribution
    it builds holds in row [r]: zero everywhere when the target of the
    row is the padding id; otherwise zero at the padding class,
    [1 - smoothing] at the target class and [smoothing / (size - 2)] at
    every other class. Over the rationals, for [size = 5],
    [padding_idx = 0], [smoothing = 1/10] and the target [2], the row is
    [0, 1/30, 9/10, 1/30, 1/30] and sums to 1. *)
Theorem label_smoothing_true_dist :
  (forall (F : Type) (SF : Scalar F) (KLDivLoss : t2 F -> t2 F -> t0 F)
          (size padding_idx : Z) (smoothing : F) (prev : option (t2 F))
          (x : t2 F) (target : t1 Z),
      let self := LabelSmoothing.with_true_dist prev
                    (LabelSmoothing.init size padding_idx smoothing) in
      Z.of_nat (cols x) = size ->
      (3 <= size)%Z ->
      len target = rows x ->
      (forall r, r < len target -> (0 <= at1 target r < size)%Z) ->
      (0 <= padding_idx < size)%Z ->
      exists td,
        LabelSmoothing.forward KLDivLoss x target self
        = (Ok (KLDivLoss x td), LabelSmoothing.set_true_dist td self)
        /\ rows td = rows x /\ cols td = cols x
        /\ forall r c, r < rows td -> c < cols td ->
            at2 td r c =
              if (at1 target r =? padding_idx)%Z then f_of_Z 0
              else if (Z.of_nat c =? padding_idx)%Z then f_of_Z 0
              else if (Z.of_nat c =? at1 target r)%Z
                   then fsub (f_of_Z 1) smoothing
                   else fdiv smoothing (f_of_Z (size - 2)))
  /\ (forall (KLDivLoss : t2 Q -> t2 Q -> t0 Q) (x : t2 Q),
         rows x = 1 -> cols x = 5 ->
         let self := LabelSmoothing.init 5 0 (1 # 10)%Q in
         exists td,
           LabelSmoothing.forward KLDivLoss x (of_list 0%Z [2%Z]) self
           = (Ok (KLDivLoss x td), LabelSmoothing.set_true_dist td self)
           /\ row td 0 = [0; 1 # 30; 9 # 10; 1 # 30; 1 # 30]%Q
           /\ (fold_right Qplus 0 (row td 0) == 1)%Q).
Proof.
  split.
  - intros F SF KLDivLoss size padding_idx smoothing prev x target self
           Hcols Hsize Hlen Htarget Hpad.
    destruct (forward_true_dist KLDivLoss self x target)
      as (td & Hf & Hr & Hc & Hat); try assumption.
    + cbn. lia.
    + exists td. repeat split; assumption.
  - intros KLDivLoss x Hrows Hcols self.
    destruct (forward_true_dist KLDivLoss self x (of_list 0%Z [2%Z]))
      as (td & Hf & Hr & Hc & Hat).
    + cbn. rewrite Hcols. reflexivity.
    + cbn. lia.
    + cbn. congruence.
    + intros r Hlt. cbn in Hlt. destruct r as [|r]; [cbn; lia | lia].
    + cbn. lia.
    + exists td. split; [exact Hf|].
      assert (Hrow : row td 0 = [0; 1 # 30; 9 # 10; 1 # 30; 1 # 30]%Q).
      { unfold row. rewrite Hc, Hcols. cbn [seq map].
        rewrite !Hat by lia. reflexivity. }
      split; [exact Hrow|]. rewrite Hrow. reflexivity.
Qed.

Lemma label_smoothing_true_dist_witness :
  exists td,
    LabelSmoothing.forward ex_KLDivLoss ex_x (of_list 0%Z [2%Z])
      (LabelSmoothing.init 5 0 (1 # 10)%Q)
    = (Ok (ex_KLDivLoss ex_x td),
       LabelSmoothing.set_true_dist td (LabelSmoothing.init 5 0 (1 # 10)%Q))
    /\ at2 td 0 2 = (9 # 10)%Q.
Proof.
  destruct (proj1 label_smoothing_true_dist Q Scalar_Q ex_KLDivLoss
              5%Z 0%Z (1 # 10)%Q None ex_x (of_list 0%Z [2%Z]))
    as (td & Hf & Hr & Hc & Hat).
  - reflexivity.
  - lia.
  - reflexivity.
  - intros r Hlt. cbn in Hlt. destruct r as [|r]; [cbn; lia | lia].
  - lia.
  - exists td. split; [exact Hf|].
    rewrite Hat; [reflexivity | rewrite Hr; cbn; lia | rewrite Hc; cbn; lia].
Defined.

(** C7. When the number of columns of [x] is not the configured [size],
    [forward] raises the assertion error, whatever the criterion is, and
    leaves the object as it was; when the two agree, [forward] does not
    raise the assertion error. *)
Theorem forward_size_mismatch
        (F : Type) (SF : Scalar F) (KLDivLoss : t2 F -> t2 F -> t0 F)
        (self : LabelSmoothing.t) (x : t2 F) (target : t1 Z) :
  (Z.of_nat (cols x) <> LabelSmoothing.size self ->
   LabelSmoothing.forward KLDivLoss x target self
   = (Raise AssertionError, self))
  /\ (Z.of_nat (cols x) = LabelSmoothing.size self ->
      fst (LabelSmoothing.forward KLDivLoss x target self)
      <> Raise AssertionError).
Proof.
  pose proof (forward_cases KLDivLoss self x target) as Hcases.
  split.
  - intros Hne.
    unfold LabelSmoothing.forward, bind, get, raise.
    destruct (Z.eqb_spec (Z.of_nat (cols x)) (LabelSmoothing.size self));
      [contradiction | reflexivity].
  - intros Heq.
    destruct (LabelSmoothing.forward KLDivLoss x target self) as [[v|e] s'];
      cbn [fst]; [discriminate|].
    destruct Hcases as [_ Hiff]. intros Habs. injection Habs as ->.
    apply (proj1 Hiff eq_refl). exact Heq.
Qed.

Lemma forward_size_mismatch_witness :
  LabelSmoothing.forward ex_KLDivLoss ex_x (of_list 0%Z [2%Z])
    (LabelSmoothing.init 4 0 (1 # 10)%Q)
  = (Raise AssertionError, LabelSmoothing.init 4 0 (1 # 10)%Q)
  /\ fst (LabelSmoothing.forward ex_KLDivLoss ex_x (of_list 0%Z [2%Z])
            (LabelSmoothing.init 5 0 (1 # 10)%Q))
     <> Raise AssertionError.
Proof.
  split.
  - apply (proj1 (@forward_size_mismatch Q Scalar_Q ex_KLDivLoss
                    (LabelSmoothing.init 4 0 (1 # 10)%Q) ex_x
                    (of_list 0%Z [2%Z]))).
    cbn. lia.
  - apply (proj2 (@forward_size_mismatch Q Scalar_Q ex_KLDivLoss
                    (LabelSmoothing.init 5 0 (1 # 10)%Q) ex_x
                    (of_list 0%Z [2%Z]))).
    reflexivity.
Defined.

(** C9, as the code has it. [forward] builds the distribution anew at
    every call: what it returns does not depend on the distribution the
    object held before. When it returns, the object's [true_dist] holds
    the distribution that was just built and scored by the criterion;
    when it raises, the object is as it was. *)
Theorem true_dist_rebuilt_and_stored
        (F : Type) (SF : Scalar F) (KLDivLoss : t2 F -> t2 F -> t0 F)
        (self : LabelSmoothing.t) (prev : option (t2 F))
        (x : t2 F) (target : t1 Z) :
  fst (LabelSmoothing.forward KLDivLoss x target
         (LabelSmoothing.with_true_dist prev self))
  = fst (LabelSmoothing.forward KLDivLoss x target self)
  /\ match LabelSmoothing.forward KLDivLoss x target self with
     | (Ok v, self') =>
         exists td, LabelSmoothing.true_dist self' = Some td
                    /\ self' = LabelSmoothing.set_true_dist td self
                    /\ v = KLDivLoss x td
     | (Raise _, self') => self' = self
     end.
Proof.
  split.
  - unfold LabelSmoothing.forward, bind, get, lift, modify, ret, raise,
      LabelSmoothing.uniform_share.
    cbn [LabelSmoothing.with_true_dist LabelSmoothing.size
         LabelSmoothing.smoothing LabelSmoothing.confidence
         LabelSmoothing.padding_idx].
    destruct (negb _); [reflexivity|].
    destruct (LabelSmoothing.size self - 2 =? 0)%Z; [reflexivity|].
    destruct (scatter_1 _ _ _) as [d1|e]; [|reflexivity].
    destruct (set_col _ _ _) as [d2|e]; [|reflexivity].
    change (0 <? LabelSmoothing.mask_dim) with true. cbv iota.
    destruct (index_fill_0 _ _ _) as [d3|e]; reflexivity.
  - pose proof (forward_cases KLDivLoss self x target) as Hcases.
    destruct (LabelSmoothing.forward KLDivLoss x target self) as [[v|e] s'].
    + destruct Hcases as (td & -> & ->). exists td.
      repeat split; reflexivity.
    + apply Hcases.
Qed.

(** C9, as it is worded, fails: after a call that returns, the object
    holds the distribution that the call built. *)
Lemma true_dist_is_retained :
  exists td,
    LabelSmoothing.true_dist
      (snd (LabelSmoothing.forward ex_KLDivLoss ex_x (of_list 0%Z [2%Z])
              (LabelSmoothing.init 5 0 (1 # 10)%Q)))
    = Some td
    /\ row td 0 = [0; 1 # 30; 9 # 10; 1 # 30; 1 # 30]%Q.
Proof.
  eexists. split; reflexivity.
Qed.


(** ** SimpleLossCompute *)

(** C6, as the code has it. When the generator and the criterion return,
    the call returns the pair of the criterion's value divided by [norm]
    and multiplied by [norm] again, detached from the graph, and of the
    criterion's value divided by [norm], attached to the graph as the
    criterion's value is. The state is the one the criterion left:
    nothing else is run, no backward pass either. Over the rationals and
    for a non-zero [norm], the first value of the pair is the value of
    the criterion. *)
Theorem simple_loss_compute_pair :
  (forall (F : Type) (SF : Scalar F) (St In : Type)
          (self : SimpleLossCompute.t St In) (x : In) (y : t2 Z) (norm : Z)
          (s s1 s2 : St) (gx : t3 F) (x2 : t2 F) (c : t0 F),
      SimpleLossCompute.generator self x s = (Ok gx, s1) ->
      view_rows gx = Ok x2 ->
      SimpleLossCompute.criterion self x2 (view_flat y) s1 = (Ok c, s2) ->
      exists display,
        SimpleLossCompute.call self x y norm s
        = (Ok (display, SimpleLossCompute.div_norm c norm), s2)
        /\ attached display = false
        /\ attached (SimpleLossCompute.div_norm c norm) = attached c
        /\ item (SimpleLossCompute.div_norm c norm)
           = fdiv (item c) (f_of_Z norm)
        /\ item display
           = fmul (fdiv (item c) (f_of_Z norm)) (f_of_Z norm))
  /\ (forall (St In : Type) (self : SimpleLossCompute.t (F := Q) St In)
             (x : In) (y : t2 Z) (norm : Z)
             (s s1 s2 : St) (gx : t3 Q) (x2 : t2 Q) (c : t0 Q),
         SimpleLossCompute.generator self x s = (Ok gx, s1) ->
         view_rows gx = Ok x2 ->
         SimpleLossCompute.criterion self x2 (view_flat y) s1 = (Ok c, s2) ->
         norm <> 0%Z ->
         exists display node,
           SimpleLossCompute.call self x y norm s = (Ok (display, node), s2)
           /\ (item display == item c)%Q).
Proof.
  split.
  - intros F SF St In self x y norm s s1 s2 gx x2 c Hg Hv Hc.
    eexists. unfold SimpleLossCompute.call, bind, lift, ret.
    rewrite Hg, Hv, Hc. split; [reflexivity|]. cbn. repeat split.
  - intros St In self x y norm s s1 s2 gx x2 c Hg Hv Hc Hnorm.
    do 2 eexists. unfold SimpleLossCompute.call, bind, lift, ret.
    rewrite Hg, Hv, Hc. split; [reflexivity|]. cbn.
    unfold Qdiv. rewrite <- Qmult_assoc, (Qmult_comm (/ _)), Qmult_inv_r.
    + apply Qmult_1_r.
    + intros Habs. apply Hnorm.
      unfold Qeq, inject_Z in Habs. cbn in Habs. lia.
Qed.

Lemma simple_loss_compute_pair_witness :
  exists display node,
    SimpleLossCompute.call ex_loss_Q tt ex_y 2 0
    = (Ok (display, node), 1)
    /\ (item display == 3)%Q.
Proof.
  destruct (proj2 simple_loss_compute_pair nat unit ex_loss_Q tt ex_y 2%Z
              0 0 1
              (mk3 1 1 5 (fun _ _ _ => f_of_Z 0))
              (mk2 (1 * 1) 5 (fun r c => f_of_Z 0))
              (mk0 (f_of_Z 3) true))
    as (display & node & Hcall & Hitem).
  - reflexivity.
  - reflexivity.
  - reflexivity.
  - lia.
  - exists display, node. split; [exact Hcall | exact Hitem].
Defined.

(** C6, as it is worded, fails: with a zero [norm] the first value of
    the pair is not a number, and with [norm = 49] it is the float below
    1, where the value of the criterion is 1. *)
Lemma display_loss_is_not_criterion_value :
  (exists display node,
      SimpleLossCompute.call ex_loss_float tt ex_y 0 0
      = (Ok (display, node), 1)
      /\ PrimFloat.is_nan (item display) = true
      /\ item display <> 1%float)
  /\ (exists display node,
         SimpleLossCompute.call ex_loss_float tt ex_y 49 0
         = (Ok (display, node), 1)
         /\ PrimFloat.ltb (item display) 1%float = true
         /\ item display <> 1%float).
Proof.
  split; do 2 eexists; (split; [reflexivity|]);
    (split; [vm_compute; reflexivity|]).
  - intros Habs.
    assert (Hnan : PrimFloat.is_nan 1%float = true)
      by (rewrite <- Habs; vm_compute; reflexivity).
    vm_compute in Hnan. discriminate.
  - intros Habs.
    assert (Hlt : PrimFloat.ltb 1%float 1%float = true)
      by (rewrite <- Habs at 1; vm_compute; reflexivity).
    vm_compute in Hlt. discriminate.
Qed.

(** ** run_epoch: the counters and the external calls *)

Lemma calls_app (e : Event) (tr tr' : list Event) :
  calls e (tr ++ tr') = calls e tr + calls e tr'.
Proof. unfold calls. apply count_occ_app. Qed.

Lemma updates_from_filter (k : Z) (a n : nat) :
  updates_from k (Z.of_nat a) n
  = length (filter (fun i => (i mod k =? 0)%Z) (map Z.of_nat (seq a n))).
Proof.
  revert a. induction n as [|n IH]; intros a; cbn [updates_from seq map].
  - reflexivity.
  - replace (Z.of_nat a + 1)%Z with (Z.of_nat (S a)) by lia.
    rewrite IH. cbn [filter].
    destruct (Z.of_nat a mod k =? 0)%Z; reflexivity.
Qed.

Lemma updates_from_indices (k : Z) (n : nat) :
  updates_from k 0 n = length (update_indices k n).
Proof. apply (updates_from_filter k 0 n). Qed.

Lemma train_progress_nil (k i : Z) (w : World) : train_progress k i [] w w.
Proof. unfold train_progress; cbn. repeat split; lia. Qed.

Lemma train_progress_cons (k i : Z) (b : Batch.t) (bs : list Batch.t)
      (w w1 w2 : World) :
  train_progress k i [b] w w1 ->
  train_progress k (i + 1) bs w1 w2 ->
  train_progress k i (b :: bs) w w2.
Proof.
  unfold train_progress. cbn [length updates_from total_batch_size fold_right].
  destruct (i mod k =? 0)%Z;
    intros (A1 & A2 & A3 & A4 & A5 & A6 & A7)
           (B1 & B2 & B3 & B4 & B5 & B6 & B7);
    fold (total_batch_size bs); repeat split; lia.
Qed.

Section RunEpochFacts.

Context {F : Type} `{Scalar F}.
Variable Out : Type.
Variable model_forward : t2 Z -> t2 Z -> t3 bool -> t3 bool -> Out.
Variable loss_compute : Out -> t2 Z -> Z -> t0 F * t0 F.

(** One batch in a training mode. *)
Lemma loop_body_train (mode : string) (k i : Z) (b : Batch.t)
      (l : Locals) (w : World) :
  is_train mode = true -> k <> 0%Z -> has_target b = true ->
  exists l' w',
    loop_body model_forward loss_compute mode k i b l w = (Ok l', w')
    /\ train_progress k i [b] w w'
    /\ is_tensor (total_tokens l') = true
    /\ is_tensor (total_loss l') = true.
Proof.
  intros Hmode Hk Hb. unfold has_target in Hb.
  unfold loop_body, train_branch, pymod.
  destruct (Batch.tgt b) as [tgt|]; [|discriminate].
  destruct (Batch.tgt_y b) as [tgt_y|]; [|discriminate].
  destruct (Batch.tgt_mask b) as [tgt_mask|]; [|discriminate].
  destruct (Batch.ntokens b) as [ntokens|]; [|discriminate].
  rewrite Hmode.
  destruct (Z.eqb_spec k 0) as [|_]; [contradiction|].
  cbv [bind getattr emit update_train_state modify ret raise].
  cbv beta iota.
  destruct (loss_compute _ _ _) as [loss loss_node].
  unfold train_progress.
  cbn [length updates_from total_batch_size fold_right].
  destruct (i mod k =? 0)%Z; destruct (i mod 40 =? 1)%Z;
    cbn [andb train_state trace];
    do 2 eexists; (split; [reflexivity|]);
    cbn [train_state trace TrainState.step TrainState.accum_step
         TrainState.samples TrainState.tokens total_tokens total_loss];
    rewrite !calls_app; cbn;
    (split; [repeat split; lia|]);
    split; destruct (total_tokens l), (total_loss l); reflexivity.
Qed.

(** The whole loop in a training mode. *)
Lemma for_each_train (mode : string) (k : Z) (bs : list Batch.t) :
  is_train mode = true -> k <> 0%Z ->
  Forall (fun b => has_target b = true) bs ->
  forall (i : Z) (l : Locals) (w : World),
  exists l' w',
    for_each model_forward loss_compute mode k i bs l w = (Ok l', w')
    /\ train_progress k i bs w w'
    /\ (bs = [] /\ l' = l
        \/ is_tensor (total_tokens l') = true
           /\ is_tensor (total_loss l') = true).
Proof.
  intros Hmode Hk Hall. induction Hall as [|b bs Hb Hbs IH]; intros i l w.
  - exists l, w. split; [reflexivity|].
    split; [apply train_progress_nil | left; split; reflexivity].
  - destruct (@loop_body_train mode k i b l w Hmode Hk Hb)
      as (l1 & w1 & Hbody & Hp1 & Ht1 & Ht1').
    destruct (IH (i + 1)%Z l1 w1) as (l2 & w2 & Hrest & Hp2 & Ht2).
    exists l2, w2. cbn [for_each]. unfold bind at 1.
    rewrite Hbody, Hrest. split; [reflexivity|].
    split; [eapply train_progress_cons; eassumption|].
    right. destruct Ht2 as [[_ ->] | Ht2]; [split|]; assumption.
Qed.

(** The division at the end of [run_epoch] returns once the totals are
    tensors. *)
Lemma truediv_tensor (a : pynum F) (b : pynum Z) :
  is_tensor b = true -> is_tensor a = true -> exists m, truediv a b = Ok m.
Proof.
  destruct a, b; cbn; intros Hb Ha; try discriminate. eexists; reflexivity.
Qed.

Lemma run_epoch_train (mode : string) (k : Z) (bs : list Batch.t)
      (w : World) :
  is_train mode = true -> k <> 0%Z ->
  Forall (fun b => has_target b = true) bs ->
  exists w',
    snd (run_epoch model_forward loss_compute bs mode k w) = w'
    /\ train_progress k 0 bs w w'
    /\ (bs <> [] ->
        exists mean,
          run_epoch model_forward loss_compute bs mode k w
          = (Ok (mean, train_state w'), w')).
Proof.
  intros Hmode Hk Hall.
  destruct (@for_each_train mode k bs Hmode Hk Hall 0%Z locals_init w)
    as (l' & w' & Hloop & Hp & Ht).
  assert (Hrun :
    run_epoch model_forward loss_compute bs mode k w
    = (match truediv (total_loss l') (total_tokens l') with
       | Ok m => Ok (m, train_state w')
       | Raise e => Raise e
       end, w')).
  { unfold run_epoch, bind, lift, get, ret. rewrite Hloop.
    destruct (truediv _ _); reflexivity. }
  exists w'. rewrite Hrun. split; [reflexivity|]. split; [exact Hp|].
  intros Hne. destruct Ht as [[Hnil _] | [Ht Ht']]; [contradiction|].
  destruct (@truediv_tensor _ _ Ht Ht') as (m & Hm). rewrite Hm.
  exists m. reflexivity.
Qed.

(** One batch in evaluation mode: the [TrainState] is untouched, and
    only the model and the loss computation are called. *)
Lemma loop_body_eval (k i : Z) (b : Batch.t) (l : Locals) (w : World) :
  exists r evs,
    loop_body model_forward loss_compute "eval" k i b l w
    = (r, mkWorld (train_state w) (trace w ++ evs))
    /\ forallb eval_event evs = true
    /\ match r with
       | Ok l' => has_target b = true
                  /\ is_tensor (total_tokens l') = true
                  /\ is_tensor (total_loss l') = true
       | Raise e => has_target b = false
       end.
Proof.
  unfold loop_body, has_target.
  change (is_train "eval") with false.
  unfold bind, getattr, emit, modify, ret, raise.
  destruct w as [ts tr]. cbn [train_state trace].
  destruct (Batch.tgt b) as [tgt|].
  2:{ exists (Raise AttributeError), []. rewrite app_nil_r.
      repeat split. }
  destruct (Batch.tgt_mask b) as [tgt_mask|].
  2:{ exists (Raise AttributeError), []. rewrite app_nil_r.
      repeat split. destruct (Batch.tgt_y b); reflexivity. }
  destruct (Batch.tgt_y b) as [tgt_y|].
  2:{ exists (Raise AttributeError), [model_forward_call].
      repeat split. }
  destruct (Batch.ntokens b) as [ntokens|].
  2:{ exists (Raise AttributeError), [model_forward_call].
      repeat split. }
  destruct (loss_compute _ _ _) as [loss loss_node].
  rewrite andb_false_r. cbn [train_state trace].
  eexists. exists [model_forward_call; loss_compute_call].
  rewrite <- app_assoc. cbn [app].
  split; [reflexivity|]. split; [reflexivity|]. cbn.
  split; [reflexivity|].
  split; destruct (total_tokens l), (total_loss l); reflexivity.
Qed.

Lemma for_each_eval (k : Z) (bs : list Batch.t) :
  forall (i : Z) (l : Locals) (w : World),
  exists r evs,
    for_each model_forward loss_compute "eval" k i bs l w
    = (r, mkWorld (train_state w) (trace w ++ evs))
    /\ forallb eval_event evs = true
    /\ (Forall (fun b => has_target b = true) bs ->
        exists l', r = Ok l'
                   /\ (bs = [] /\ l' = l
                       \/ is_tensor (total_tokens l') = true
                          /\ is_tensor (total_loss l') = true)).
Proof.
  induction bs as [|b bs IH]; intros i l w.
  - exists (Ok l), []. rewrite app_nil_r. destruct w.
    repeat split. intros _. exists l. split; [reflexivity|].
    left; split; reflexivity.
  - destruct (loop_body_eval k i b l w) as (r1 & evs1 & Hbody & He1 & Hr1).
    cbn [for_each]. unfold bind at 1. rewrite Hbody.
    destruct r1 as [l1|e].
    + destruct (IH (i + 1)%Z l1 (mkWorld (train_state w) (trace w ++ evs1)))
        as (r2 & evs2 & Hrest & He2 & Hr2).
      exists r2, (evs1 ++ evs2). rewrite Hrest. cbn [train_state trace].
      rewrite app_assoc. split; [reflexivity|].
      split; [rewrite forallb_app, He1, He2; reflexivity|].
      intros Hall. inversion Hall as [|b' bs' Hb Hbs]; subst.
      destruct (Hr2 Hbs) as (l2 & -> & Hl2). exists l2.
      split; [reflexivity|]. right.
      destruct Hl2 as [[_ ->] | Hl2]; [apply Hr1 | exact Hl2].
    + exists (Raise e), evs1. split; [reflexivity|]. split; [exact He1|].
      intros Hall. inversion Hall as [|b' bs' Hb Hbs]; subst. congruence.
Qed.

Lemma eval_events_calls (e : Event) (evs : list Event) :
  forallb eval_event evs = true -> eval_event e = false -> calls e evs = 0.
Proof.
  intros Hall He. unfold calls. apply count_occ_not_In.
  intros Hin. rewrite forallb_forall in Hall.
  specialize (Hall e Hin). congruence.
Qed.

End RunEpochFacts.

Lemma is_train_modes (mode : string) :
  mode = "train"%string \/ mode = "train+log"%string -> is_train mode = true.
Proof. intros [-> | ->]; reflexivity. Qed.

Lemma total_batch_size_uniform (n : nat) (bs : list Batch.t) :
  Forall (fun b => has_target b = true /\ rows (Batch.src b) = n) bs ->
  total_batch_size bs = (Z.of_nat n * Z.of_nat (length bs))%Z
  /\ Forall (fun b => has_target b = true) bs.
Proof.
  induction 1 as [|b bs [Hb Hn] _ [IH1 IH2]];
    cbn [total_batch_size fold_right length].
  - split; [lia | constructor].
  - fold (total_batch_size bs). rewrite IH1, Hn.
    split; [lia | constructor; assumption].
Qed.

(** C3. In a training mode, over batches that carry their target and
    with an accumulation interval [k >= 1], [run_epoch] adds to
    [accum_step], and calls [optimizer.step], once for every batch index
    below the number of batches that [k] divides, and it calls
    [scheduler.step] once per batch. *)
Theorem accumulation_cadence
        (F : Type) (SF : Scalar F) (Out : Type)
        (model_forward : t2 Z -> t2 Z -> t3 bool -> t3 bool -> Out)
        (loss_compute : Out -> t2 Z -> Z -> t0 F * t0 F)
        (bs : list Batch.t) (mode : string) (k : Z) (w : World) :
  mode = "train"%string \/ mode = "train+log"%string ->
  (1 <= k)%Z ->
  Forall (fun b => has_target b = true) bs ->
  let w' := snd (run_epoch model_forward loss_compute bs mode k w) in
  let updates := length (update_indices k (length bs)) in
  TrainState.accum_step (train_state w')
  = (TrainState.accum_step (train_state w) + Z.of_nat updates)%Z
  /\ calls optimizer_step (trace w')
     = calls optimizer_step (trace w) + updates
  /\ calls scheduler_step (trace w')
     = calls scheduler_step (trace w) + length bs.
Proof.
  intros Hmode Hk Hall w' updates. subst w' updates.
  destruct (@run_epoch_train F SF Out model_forward loss_compute mode k bs w
              (is_train_modes Hmode) ltac:(lia) Hall)
    as (w' & -> & Hp & _).
  destruct Hp as (_ & Ha & _ & _ & Ho & _ & Hs).
  rewrite <- updates_from_indices. repeat split; assumption.
Qed.

Lemma accumulation_cadence_witness :
  let w' := snd (run_epoch ex_model ex_loss_compute ex_batches "train" 2
                   ex_world) in
  TrainState.accum_step (train_state w') = 3%Z
  /\ calls optimizer_step (trace w') = 3
  /\ calls scheduler_step (trace w') = 5.
Proof.
  apply (@accumulation_cadence Q Scalar_Q unit ex_model ex_loss_compute
           ex_batches "train" 2%Z ex_world).
  - left; reflexivity.
  - lia.
  - repeat constructor.
Defined.

(** C4, as the code has it. Two training epochs of five batches of two
    sentences each, with [accum_iter = 2] and one [TrainState] that
    starts at zero, both return, and leave [step = 10], [samples = 20]
    and [accum_step = 6]: the batch index starts at 0 again in the second
    epoch, so that the indices 0, 2 and 4 of each epoch update the
    parameters. *)
Theorem two_epochs_counters
        (F : Type) (SF : Scalar F) (Out : Type)
        (model_forward : t2 Z -> t2 Z -> t3 bool -> t3 bool -> Out)
        (loss_compute : Out -> t2 Z -> Z -> t0 F * t0 F)
        (bs1 bs2 : list Batch.t) :
  length bs1 = 5 -> length bs2 = 5 ->
  Forall (fun b => has_target b = true /\ rows (Batch.src b) = 2) bs1 ->
  Forall (fun b => has_target b = true /\ rows (Batch.src b) = 2) bs2 ->
  exists m1 m2 w1 w2,
    run_epoch model_forward loss_compute bs1 "train" 2
      (mkWorld TrainState.init [])
    = (Ok (m1, train_state w1), w1)
    /\ run_epoch model_forward loss_compute bs2 "train" 2 w1
       = (Ok (m2, train_state w2), w2)
    /\ TrainState.step (train_state w2) = 10%Z
    /\ TrainState.accum_step (train_state w2) = 6%Z
    /\ TrainState.samples (train_state w2) = 20%Z.
Proof.
  intros Hl1 Hl2 Hall1 Hall2.
  destruct (total_batch_size_uniform Hall1) as [Hs1 Ht1].
  destruct (total_batch_size_uniform Hall2) as [Hs2 Ht2].
  destruct (@run_epoch_train F SF Out model_forward loss_compute
              "train" 2%Z bs1 (mkWorld TrainState.init [])
              eq_refl ltac:(lia) Ht1)
    as (w1 & _ & Hp1 & Hr1).
  destruct (@run_epoch_train F SF Out model_forward loss_compute
              "train" 2%Z bs2 w1 eq_refl ltac:(lia) Ht2)
    as (w2 & _ & Hp2 & Hr2).
  destruct Hr1 as (m1 & Hr1); [intros ->; discriminate|].
  destruct Hr2 as (m2 & Hr2); [intros ->; discriminate|].
  exists m1, m2, w1, w2. split; [exact Hr1|]. split; [exact Hr2|].
  destruct Hp1 as (A1 & A2 & A3 & _). destruct Hp2 as (B1 & B2 & B3 & _).
  rewrite Hs1, Hl1 in A3. rewrite Hs2, Hl2 in B3.
  rewrite Hl1 in A1, A2. rewrite Hl2 in B1, B2.
  cbn in A1, A2, A3, B1, B2, B3. repeat split; lia.
Qed.

Lemma two_epochs_counters_witness :
  exists m1 m2 w1 w2,
    run_epoch ex_model ex_loss_compute ex_batches "train" 2 ex_world
    = (Ok (m1, train_state w1), w1)
    /\ run_epoch ex_model ex_loss_compute ex_batches "train" 2 w1
       = (Ok (m2, train_state w2), w2)
    /\ TrainState.step (train_state w2) = 10%Z
    /\ TrainState.accum_step (train_state w2) = 6%Z
    /\ TrainState.samples (train_state w2) = 20%Z.
Proof.
  apply (@two_epochs_counters Q Scalar_Q unit ex_model ex_loss_compute
           ex_batches ex_batches).
  - reflexivity.
  - reflexivity.
  - repeat constructor.
  - repeat constructor.
Defined.

(** C4, as it is worded, fails: after the two epochs [accum_step] is 6,
    not 5. *)
Lemma two_epochs_accum_step_is_6 :
  let w1 := snd (run_epoch ex_model ex_loss_compute ex_batches "train" 2
                   ex_world) in
  let w2 := snd (run_epoch ex_model ex_loss_compute ex_batches "train" 2
                   w1) in
  TrainState.accum_step (train_state w2) = 6%Z
  /\ ~ (TrainState.step (train_state w2) = 10%Z
        /\ TrainState.accum_step (train_state w2) = 5%Z
        /\ TrainState.samples (train_state w2) = 20%Z).
Proof.
  split.
  - vm_compute. reflexivity.
  - intros (_ & Habs & _). vm_compute in Habs. discriminate.
Qed.

(** C5. In "eval" mode, whatever the batches and the accumulation
    interval are, [run_epoch] leaves the [TrainState] it was given as it
    is, and the calls it makes do not include the backward pass,
    [optimizer.step], [optimizer.zero_grad] or [scheduler.step]. Over at
    least one batch, all with their target, it returns that
    [TrainState]. *)
Theorem eval_mode_frame
        (F : Type) (SF : Scalar F) (Out : Type)
        (model_forward : t2 Z -> t2 Z -> t3 bool -> t3 bool -> Out)
        (loss_compute : Out -> t2 Z -> Z -> t0 F * t0 F)
        (bs : list Batch.t) (k : Z) (w : World) :
  exists r evs,
    run_epoch model_forward loss_compute bs "eval" k w
    = (r, mkWorld (train_state w) (trace w ++ evs))
    /\ calls loss_node_backward evs = 0
    /\ calls optimizer_step evs = 0
    /\ calls optimizer_zero_grad evs = 0
    /\ calls scheduler_step evs = 0
    /\ (bs <> [] -> Forall (fun b => has_target b = true) bs ->
        exists mean, r = Ok (mean, train_state w)).
Proof.
  destruct (for_each_eval model_forward loss_compute k bs 0%Z locals_init w)
    as (r & evs & Hloop & Hev & Hok).
  unfold run_epoch, bind at 1. rewrite Hloop.
  destruct r as [l'|e].
  - unfold bind, lift, get, ret.
    destruct (truediv (total_loss l') (total_tokens l')) as [m|e] eqn:Hdiv.
    + exists (Ok (m, train_state w)), evs. split; [reflexivity|].
      repeat split; try (apply eval_events_calls; [exact Hev | reflexivity]).
      intros _ _. exists m. reflexivity.
    + exists (Raise e), evs. split; [reflexivity|].
      repeat split; try (apply eval_events_calls; [exact Hev | reflexivity]).
      intros Hne Hall. destruct (Hok Hall) as (l2 & Hl2 & Ht).
      injection Hl2 as <-.
      destruct Ht as [[Hnil _] | [Ht Ht']]; [contradiction|].
      destruct (@truediv_tensor F SF _ _ Ht Ht') as (m & Hm). congruence.
  - exists (Raise e), evs. split; [reflexivity|].
    repeat split; try (apply eval_events_calls; [exact Hev | reflexivity]).
    intros _ Hall. destruct (Hok Hall) as (l2 & Hl2 & _). discriminate.
Qed.

Lemma eval_mode_frame_witness :
  exists r evs,
    run_epoch ex_model ex_loss_compute ex_batches "eval" 2 ex_world
    = (r, mkWorld TrainState.init evs)
    /\ calls loss_node_backward evs = 0
    /\ calls scheduler_step evs = 0
    /\ exists mean, r = Ok (mean, TrainState.init).
Proof.
  destruct (@eval_mode_frame Q Scalar_Q unit ex_model ex_loss_compute
              ex_batches 2%Z ex_world)
    as (r & evs & Hrun & Hb & _ & _ & Hs & Hret).
  exists r, evs. split; [exact Hrun|]. split; [exact Hb|].
  split; [exact Hs|]. apply Hret.
  - discriminate.
  - repeat constructor.
Defined.

(** C10. Over no batch at all, in any mode, the loop leaves the running
    totals at the Python int 0 and [run_epoch] raises the division error
    of [0 / 0] instead of returning a mean loss; the world is as it
    was. *)
Theorem empty_epoch_zero_division
        (F : Type) (SF : Scalar F) (Out : Type)
        (model_forward : t2 Z -> t2 Z -> t3 bool -> t3 bool -> Out)
        (loss_compute : Out -> t2 Z -> Z -> t0 F * t0 F)
        (mode : string) (k : Z) (w : World) :
  (exists l,
      for_each model_forward loss_compute mode k 0 [] (locals_init (F := F)) w
      = (Ok l, w)
      /\ total_tokens l = PyInt 0 /\ total_loss l = PyInt 0)
  /\ run_epoch model_forward loss_compute [] mode k w
     = (Raise ZeroDivisionError, w).
Proof.
  split.
  - exists locals_init. repeat split.
  - reflexivity.
Qed.

(** * Further properties *)

(** ** Batch: the source mask, the shifted target and the token count *)

(** X1. Whether or not a target is given, the batch is built, keeps
    [src], and its [src_mask] has the shape [batch, 1, src_len] and is
    true exactly at the positions of [src] that are not the padding
    id. *)
Theorem src_mask_marks_padding (src : t2 Z) (tgt : option (t2 Z)) (pad : Z) :
  exists batch,
    Batch.init src tgt pad = Ok batch
    /\ Batch.src batch = src
    /\ (d0 (Batch.src_mask batch), d1 (Batch.src_mask batch),
        d2 (Batch.src_mask batch)) = (rows src, 1, cols src)
    /\ forall b j,
        b < rows src -> j < cols src ->
        exists v, get3 (Batch.src_mask batch) b 0 j = Some v
                  /\ (v = true <-> at2 src b j <> pad).
Proof.
  assert (Hmask : forall b j, b < rows src -> j < cols src ->
            exists v, get3 (unsqueeze_m2 (ne src pad)) b 0 j = Some v
                      /\ (v = true <-> at2 src b j <> pad)).
  { intros b j Hb Hj. unfold get3. cbn [d0 d1 d2 unsqueeze_m2 ne map2 rows
                                       cols at3 at2].
    destruct (Nat.ltb_spec b (rows src)); [|lia].
    destruct (Nat.ltb_spec j (cols src)); [|lia].
    cbn. eexists; split; [reflexivity|].
    rewrite negb_true_iff, Z.eqb_neq. tauto. }
  unfold Batch.init. destruct tgt as [tgt|].
  - destruct (make_std_mask_ok (drop_last tgt) pad) as (m & Hm & _).
    rewrite Hm. eexists. split; [reflexivity|].
    cbn [Batch.src Batch.src_mask]. repeat split. exact Hmask.
  - eexists. split; [reflexivity|].
    cbn [Batch.src Batch.src_mask]. repeat split. exact Hmask.
Qed.

Lemma src_mask_marks_padding_witness :
  exists batch,
    Batch.init ex_src None 2 = Ok batch
    /\ exists v, get3 (Batch.src_mask batch) 1 0 2 = Some v
                 /\ (v = true <-> at2 ex_src 1 2 <> 2%Z).
Proof.
  destruct (src_mask_marks_padding ex_src None 2)
    as (batch & Hi & _ & _ & Hat).
  exists batch. split; [exact Hi|]. apply Hat; cbn; lia.
Defined.

(** X3. With a target of [L] positions, [tgt] and [tgt_y] both have
    [L - 1] positions per sentence; [tgt] holds the positions
    [0 .. L-2] of the target and [tgt_y] the positions [1 .. L-1], so
    that the label at a position is the input of the next one. *)
Theorem tgt_and_tgt_y_are_shifted (src tgt : t2 Z) (pad : Z) :
  exists batch t ty,
    Batch.init src (Some tgt) pad = Ok batch
    /\ Batch.tgt batch = Some t
    /\ Batch.tgt_y batch = Some ty
    /\ (rows t, cols t) = (rows tgt, cols tgt - 1)
    /\ (rows ty, cols ty) = (rows tgt, cols tgt - 1)
    /\ forall b j,
        b < rows tgt -> j < cols tgt - 1 ->
        get2 t b j = Some (at2 tgt b j)
        /\ get2 ty b j = Some (at2 tgt b (S j))
        /\ (S j < cols tgt - 1 -> get2 t b (S j) = get2 ty b j).
Proof.
  unfold Batch.init.
  destruct (make_std_mask_ok (drop_last tgt) pad) as (m & Hm & _).
  rewrite Hm. eexists. exists (drop_last tgt), (drop_first tgt).
  cbn [Batch.tgt Batch.tgt_y].
  split; [reflexivity|]. split; [reflexivity|]. split; [reflexivity|].
  split; [reflexivity|]. split; [reflexivity|].
  intros b j Hb Hj. unfold get2. cbn [drop_last drop_first rows cols at2].
  destruct (Nat.ltb_spec b (rows tgt)); [|lia].
  destruct (Nat.ltb_spec j (cols tgt - 1)); [|lia].
  cbn [andb]. repeat split.
  intros HS. destruct (Nat.ltb_spec (S j) (cols tgt - 1)); [|lia].
  reflexivity.
Qed.

Lemma tgt_and_tgt_y_are_shifted_witness :
  exists batch t ty,
    Batch.init ex_src (Some ex_tgt) 2 = Ok batch
    /\ Batch.tgt batch = Some t
    /\ Batch.tgt_y batch = Some ty
    /\ get2 t 0 1 = Some 3%Z
    /\ get2 ty 0 1 = Some 4%Z
    /\ get2 t 0 2 = get2 ty 0 1.
Proof.
  destruct (tgt_and_tgt_y_are_shifted ex_src ex_tgt 2)
    as (batch & t & ty & Hi & Ht & Hy & _ & _ & Hat).
  exists batch, t, ty.
  destruct (Hat 0 1) as (H1 & H2 & H3); [cbn; lia | cbn; lia |].
  repeat split; try assumption. apply H3. cbn. lia.
Defined.

(** X4. The token count of a batch built from a target is never
    negative and never more than the number of entries of [tgt_y],
    [batch_size * (tgt_len - 1)]. *)
Theorem ntokens_bounds (src tgt : t2 Z) (pad : Z) :
  exists batch n,
    Batch.init src (Some tgt) pad = Ok batch
    /\ Batch.ntokens batch = Some n
    /\ (0 <= n <= Z.of_nat (rows tgt * (cols tgt - 1)))%Z.
Proof.
  unfold Batch.init.
  destruct (make_std_mask_ok (drop_last tgt) pad) as (m & Hm & _).
  rewrite Hm. do 2 eexists. cbn [Batch.ntokens].
  split; [reflexivity|]. split; [reflexivity|].
  rewrite sum_ne_count. unfold nonpad_count.
  pose proof (filter_length_le (fun e => negb (e =? pad)%Z)
                (entries (drop_first tgt))) as Hle.
  rewrite length_entries in Hle. cbn [drop_first rows cols] in Hle. lia.
Qed.

(** ** LabelSmoothing: failures and the sum of a row *)

Section LabelSmoothingEdges.

Context {F : Type} `{Scalar F}.
Variable KLDivLoss : t2 F -> t2 F -> t0 F.

Local Open Scope Z_scope.

(** The distribution [forward] builds when the padding index, read as a
    Python index, selects the column [c0]. *)
Lemma forward_true_dist_col (self : LabelSmoothing.t) (x : t2 F)
      (target : t1 Z) (c0 : nat) :
  Z.of_nat (cols x) = LabelSmoothing.size self ->
  LabelSmoothing.size self <> 2 ->
  len target = rows x ->
  (forall r, (r < len target)%nat ->
             0 <= at1 target r < LabelSmoothing.size self) ->
  norm_index (cols x) (LabelSmoothing.padding_idx self) = Ok c0 ->
  exists td,
    LabelSmoothing.forward KLDivLoss x target self
    = (Ok (KLDivLoss x td), LabelSmoothing.set_true_dist td self)
    /\ rows td = rows x /\ cols td = cols x
    /\ forall r c, (r < rows td)%nat -> (c < cols td)%nat ->
        at2 td r c =
          if at1 target r =? LabelSmoothing.padding_idx self then f_of_Z 0
          else if (c =? c0)%nat then f_of_Z 0
          else if Z.of_nat c =? at1 target r
               then LabelSmoothing.confidence self
               else fdiv (LabelSmoothing.smoothing self)
                         (f_of_Z (LabelSmoothing.size self - 2)).
Proof.
  intros Hcols Hsize Hlen Htarget Hpad.
  unfold LabelSmoothing.forward, bind, get, lift, modify, ret.
  rewrite (proj2 (Z.eqb_eq _ _) Hcols). cbn [negb].
  unfold LabelSmoothing.uniform_share.
  destruct (Z.eqb_spec (LabelSmoothing.size self - 2) 0) as [E|_]; [lia|].
  unfold scatter_1. cbn [rows cols fill_].
  assert (Hscatter :
    ((len target <=? rows x)%nat
     && forallb (fun r => (0 <=? at1 target r)
                          && (at1 target r <? Z.of_nat (cols x)))
                (seq 0 (len target))) = true).
  { apply andb_true_iff. split; [apply Nat.leb_le; lia|].
    apply forallb_forall. intros r Hin. apply in_seq in Hin.
    specialize (Htarget r ltac:(lia)).
    apply andb_true_iff. split; [apply Z.leb_le | apply Z.ltb_lt]; lia. }
  rewrite Hscatter.
  unfold set_col. cbn [rows cols]. rewrite Hpad.
  change (0 <? LabelSmoothing.mask_dim)%nat with true. cbv iota.
  unfold index_fill_0. cbn [rows cols].
  rewrite nonzero_eq_in_range by lia.
  eexists. split; [reflexivity|]. cbn [rows cols at2].
  split; [reflexivity|]. split; [reflexivity|].
  intros r c Hr Hc.
  rewrite existsb_nonzero_eq by lia.
  destruct (at1 target r =? LabelSmoothing.padding_idx self); [reflexivity|].
  destruct (c =? c0)%nat; [reflexivity|].
  destruct (Nat.ltb_spec r (len target)); [|lia].
  reflexivity.
Qed.

(** The check of [scatter_] fails when the target is longer than [x] or
    holds something that is not a column of [x]. *)
Lemma scatter_1_rejects {A : Type} (x : t2 A) (index : t1 Z) (v : A) :
  ((rows x < len index)%nat
   \/ exists r, (r < len index)%nat
                /\ ~ (0 <= at1 index r < Z.of_nat (cols x))) ->
  scatter_1 x index v = Raise RuntimeError.
Proof.
  intros Hbad. unfold scatter_1.
  destruct (_ && _) eqn:E; [|reflexivity]. exfalso.
  apply andb_true_iff in E. destruct E as [Hle Hall].
  apply Nat.leb_le in Hle.
  destruct Hbad as [Hlong | (r & Hr & Hout)]; [lia|].
  rewrite forallb_forall in Hall.
  specialize (Hall r ltac:(apply in_seq; lia)).
  apply andb_true_iff in Hall. destruct Hall as [H0 H1].
  apply Z.leb_le in H0. apply Z.ltb_lt in H1. lia.
Qed.

End LabelSmoothingEdges.

(** X5. With two classes the uniform share [smoothing / (size - 2)] is
    a division by zero: a call whose [x] has the two columns passes the
    assertion and raises the division error, and nothing is stored. *)
Theorem forward_two_classes
        (F : Type) (SF : Scalar F) (KLDivLoss : t2 F -> t2 F -> t0 F)
        (self : LabelSmoothing.t) (x : t2 F) (target : t1 Z) :
  LabelSmoothing.size self = 2%Z ->
  cols x = 2 ->
  LabelSmoothing.forward KLDivLoss x target self
  = (Raise ZeroDivisionError, self).
Proof.
  intros Hsize Hcols.
  unfold LabelSmoothing.forward, bind, get, lift, raise,
    LabelSmoothing.uniform_share.
  rewrite Hsize, Hcols. reflexivity.
Qed.

Lemma forward_two_classes_witness :
  LabelSmoothing.forward ex_KLDivLoss
    (of_rows (0 # 1)%Q 2 [[0 # 1; 0 # 1]%Q]) (of_list 0%Z [1%Z])
    (LabelSmoothing.init 2 0 (1 # 10)%Q)
  = (Raise ZeroDivisionError, LabelSmoothing.init 2 0 (1 # 10)%Q).
Proof.
  apply (@forward_two_classes Q Scalar_Q ex_KLDivLoss); reflexivity.
Defined.

(** X6. When the sizes agree and [size] is not 2, a target with more
    entries than [x] has rows, or with an entry that is not a class id in
    [0, size), makes [forward] raise the runtime error of [scatter_];
    the object keeps the distribution it had. *)
Theorem forward_target_out_of_range
        (F : Type) (SF : Scalar F) (KLDivLoss : t2 F -> t2 F -> t0 F)
        (self : LabelSmoothing.t) (x : t2 F) (target : t1 Z) :
  Z.of_nat (cols x) = LabelSmoothing.size self ->
  LabelSmoothing.size self <> 2%Z ->
  (rows x < len target
   \/ exists r, r < len target
                /\ ~ (0 <= at1 target r < LabelSmoothing.size self)%Z) ->
  LabelSmoothing.forward KLDivLoss x target self = (Raise RuntimeError, self).
Proof.
  intros Hcols Hsize Hbad.
  unfold LabelSmoothing.forward, bind, get, lift, raise,
    LabelSmoothing.uniform_share.
  rewrite (proj2 (Z.eqb_eq _ _) Hcols). cbn [negb].
  destruct (Z.eqb_spec (LabelSmoothing.size self - 2) 0) as [E|_]; [lia|].
  rewrite scatter_1_rejects; [reflexivity|].
  cbn [rows cols fill_]. rewrite Hcols. exact Hbad.
Qed.

Lemma forward_target_out_of_range_witness :
  LabelSmoothing.forward ex_KLDivLoss ex_x (of_list 0%Z [5%Z])
    (LabelSmoothing.init 5 0 (1 # 10)%Q)
  = (Raise RuntimeError, LabelSmoothing.init 5 0 (1 # 10)%Q).
Proof.
  apply (@forward_target_out_of_range Q Scalar_Q ex_KLDivLoss).
  - reflexivity.
  - cbn. lia.
  - right. exists 0. split; [cbn; lia | cbn; lia].
Defined.

(** X7. When the sizes agree, [size] is not 2 and the target holds one
    class id per row, a padding index outside [-size, size) makes
    [forward] raise the index error of the column assignment; the object
    keeps the distribution it had. *)
Theorem forward_padding_idx_out_of_range
        (F : Type) (SF : Scalar F) (KLDivLoss : t2 F -> t2 F -> t0 F)
        (self : LabelSmoothing.t) (x : t2 F) (target : t1 Z) :
  Z.of_nat (cols x) = LabelSmoothing.size self ->
  LabelSmoothing.size self <> 2%Z ->
  len target = rows x ->
  (forall r, r < len target ->
             (0 <= at1 target r < LabelSmoothing.size self)%Z) ->
  ~ (- LabelSmoothing.size self <= LabelSmoothing.padding_idx self
     < LabelSmoothing.size self)%Z ->
  LabelSmoothing.forward KLDivLoss x target self = (Raise IndexError, self).
Proof.
  intros Hcols Hsize Hlen Htarget Hpad.
  unfold LabelSmoothing.forward, bind, get, lift, raise,
    LabelSmoothing.uniform_share.
  rewrite (proj2 (Z.eqb_eq _ _) Hcols). cbn [negb].
  destruct (Z.eqb_spec (LabelSmoothing.size self - 2) 0) as [E|_]; [lia|].
  unfold scatter_1. cbn [rows cols fill_].
  assert (Hscatter :
    ((len target <=? rows x)
     && forallb (fun r => (0 <=? at1 target r)%Z
                          && (at1 target r <? Z.of_nat (cols x))%Z)
                (seq 0 (len target))) = true).
  { apply andb_true_iff. split; [apply Nat.leb_le; lia|].
    apply forallb_forall. intros r Hin. apply in_seq in Hin.
    specialize (Htarget r ltac:(lia)).
    apply andb_true_iff. split; [apply Z.leb_le | apply Z.ltb_lt]; lia. }
  rewrite Hscatter. unfold set_col, norm_index. cbn [rows cols].
  destruct (Z.leb_spec 0 (LabelSmoothing.padding_idx self));
    destruct (Z.ltb_spec (LabelSmoothing.padding_idx self)
                         (Z.of_nat (cols x)));
    destruct (Z.leb_spec (- Z.of_nat (cols x))
                         (LabelSmoothing.padding_idx self));
    destruct (Z.ltb_spec (LabelSmoothing.padding_idx self) 0);
    cbn [andb]; try reflexivity; lia.
Qed.

Lemma forward_padding_idx_out_of_range_witness :
  LabelSmoothing.forward ex_KLDivLoss ex_x (of_list 0%Z [2%Z])
    (LabelSmoothing.init 5 5 (1 # 10)%Q)
  = (Raise IndexError, LabelSmoothing.init 5 5 (1 # 10)%Q).
Proof.
  apply (@forward_padding_idx_out_of_range Q Scalar_Q ex_KLDivLoss).
  - reflexivity.
  - cbn. lia.
  - reflexivity.
  - intros r Hlt. cbn in Hlt. destruct r as [|r]; [cbn; lia | lia].
  - cbn. lia.
Defined.

(** X8. A negative padding index in [-size, 0) counts from the last
    class: with class ids as targets, [forward] returns, no row is
    zeroed, the column [size + padding_idx] is zero in every row, and
    elsewhere a row holds [1 - smoothing] at its target and
    [smoothing / (size - 2)] at the other classes. *)
Theorem forward_negative_padding_idx
        (F : Type) (SF : Scalar F) (KLDivLoss : t2 F -> t2 F -> t0 F)
        (size padding_idx : Z) (smoothing : F) (prev : option (t2 F))
        (x : t2 F) (target : t1 Z) :
  let self := LabelSmoothing.with_true_dist prev
                (LabelSmoothing.init size padding_idx smoothing) in
  Z.of_nat (cols x) = size ->
  size <> 2%Z ->
  len target = rows x ->
  (forall r, r < len target -> (0 <= at1 target r < size)%Z) ->
  (- size <= padding_idx < 0)%Z ->
  exists td,
    LabelSmoothing.forward KLDivLoss x target self
    = (Ok (KLDivLoss x td), LabelSmoothing.set_true_dist td self)
    /\ rows td = rows x /\ cols td = cols x
    /\ forall r c, r < rows td -> c < cols td ->
        at2 td r c =
          if (Z.of_nat c =? size + padding_idx)%Z then f_of_Z 0
          else if (Z.of_nat c =? at1 target r)%Z
               then fsub (f_of_Z 1) smoothing
               else fdiv smoothing (f_of_Z (size - 2)).
Proof.
  intros self Hcols Hsize Hlen Htarget Hpad.
  destruct (@forward_true_dist_col F SF KLDivLoss self x target
              (Z.to_nat (padding_idx + size)))
    as (td & Hf & Hr & Hc & Hat); try assumption.
  - unfold norm_index. cbn [LabelSmoothing.padding_idx self
      LabelSmoothing.with_true_dist LabelSmoothing.init].
    destruct (Z.leb_spec 0 padding_idx); [lia|]. cbn [andb].
    rewrite Hcols.
    destruct (Z.leb_spec (- size) padding_idx); [|lia].
    destruct (Z.ltb_spec padding_idx 0); [|lia]. reflexivity.
  - exists td. split; [exact Hf|]. split; [exact Hr|]. split; [exact Hc|].
    intros r c Hlt Hlc. rewrite Hat by assumption.
    cbn [LabelSmoothing.padding_idx LabelSmoothing.confidence
         LabelSmoothing.smoothing LabelSmoothing.size self
         LabelSmoothing.with_true_dist LabelSmoothing.init].
    specialize (Htarget r ltac:(lia)).
    destruct (Z.eqb_spec (at1 target r) padding_idx); [lia|].
    destruct (Nat.eqb_spec c (Z.to_nat (padding_idx + size)));
      destruct (Z.eqb_spec (Z.of_nat c) (size + padding_idx));
      try reflexivity; lia.
Qed.

Lemma forward_negative_padding_idx_witness :
  exists td,
    LabelSmoothing.forward ex_KLDivLoss ex_x (of_list 0%Z [2%Z])
      (LabelSmoothing.init 5 (-1) (1 # 10)%Q)
    = (Ok (ex_KLDivLoss ex_x td),
       LabelSmoothing.set_true_dist td
         (LabelSmoothing.init 5 (-1) (1 # 10)%Q))
    /\ at2 td 0 4 = (0 # 1)%Q
    /\ at2 td 0 0 = (1 # 30)%Q.
Proof.
  destruct (@forward_negative_padding_idx Q Scalar_Q ex_KLDivLoss
              5%Z (-1)%Z (1 # 10)%Q None ex_x (of_list 0%Z [2%Z]))
    as (td & Hf & Hr & Hc & Hat).
  - reflexivity.
  - lia.
  - reflexivity.
  - intros r Hlt. cbn in Hlt. destruct r as [|r]; [cbn; lia | lia].
  - lia.
  - exists td. split; [exact Hf|].
    split; (rewrite Hat; [reflexivity | rewrite Hr; cbn; lia
                                      | rewrite Hc; cbn; lia]).
Defined.

(** Sums of rows given by cases over the column. *)
Lemma qsum_const (w : Q) (s n : nat) :
  (qsum (map (fun _ => w) (seq s n)) == inject_Z (Z.of_nat n) * w)%Q.
Proof.
  revert s. induction n as [|n IH]; intros s.
  - cbn. ring.
  - cbn [seq map qsum fold_right]. fold (qsum (map (fun _ => w) (seq (S s) n))).
    rewrite IH, Nat2Z.inj_succ. unfold Z.succ. rewrite inject_Z_plus.
    change (inject_Z 1) with 1%Q. ring.
Qed.

Lemma map_update_outside {A : Type} (h : nat -> A) (a : nat) (u : A)
      (s n : nat) :
  a < s \/ s + n <= a ->
  map (fun c => if c =? a then u else h c) (seq s n) = map h (seq s n).
Proof.
  intros Hout. apply map_ext_in. intros c Hin. apply in_seq in Hin.
  destruct (Nat.eqb_spec c a); [lia | reflexivity].
Qed.

Lemma qsum_update (h : nat -> Q) (a : nat) (u : Q) (s n : nat) :
  s <= a < s + n ->
  (qsum (map (fun c => if c =? a then u else h c) (seq s n))
   == qsum (map h (seq s n)) - h a + u)%Q.
Proof.
  revert s. induction n as [|n IH]; intros s Hin; [lia|].
  cbn [seq map qsum fold_right].
  fold (qsum (map (fun c => if c =? a then u else h c) (seq (S s) n))).
  fold (qsum (map h (seq (S s) n))).
  destruct (Nat.eqb_spec s a) as [->|Hne].
  - rewrite map_update_outside by lia. ring.
  - rewrite IH by lia. ring.
Qed.

(** X9. Over the rationals, under the conditions of C2, every row of the
    distribution that [forward] builds sums to 1, except the rows whose
    target is the padding id, which sum to 0. *)
Theorem true_dist_row_sums
        (KLDivLoss : t2 Q -> t2 Q -> t0 Q)
        (size padding_idx : Z) (smoothing : Q) (prev : option (t2 Q))
        (x : t2 Q) (target : t1 Z) :
  let self := LabelSmoothing.with_true_dist prev
                (LabelSmoothing.init size padding_idx smoothing) in
  Z.of_nat (cols x) = size ->
  (3 <= size)%Z ->
  len target = rows x ->
  (forall r, r < len target -> (0 <= at1 target r < size)%Z) ->
  (0 <= padding_idx < size)%Z ->
  exists td,
    LabelSmoothing.forward KLDivLoss x target self
    = (Ok (KLDivLoss x td), LabelSmoothing.set_true_dist td self)
    /\ forall r, r < rows x ->
         (qsum (row td r)
          == if (at1 target r =? padding_idx)%Z then 0 else 1)%Q.
Proof.
  intros self Hcols Hsize Hlen Htarget Hpad.
  destruct (forward_true_dist KLDivLoss self x target)
    as (td & Hf & Hr & Hc & Hat); try assumption.
  { cbn. lia. }
  exists td. split; [exact Hf|]. intros r Hlt.
  specialize (Htarget r ltac:(lia)).
  set (p := Z.to_nat padding_idx). set (t := Z.to_nat (at1 target r)).
  set (share := (smoothing / inject_Z (size - 2))%Q).
  assert (Hrow : row td r
    = map (fun c => if (at1 target r =? padding_idx)%Z then (0 # 1)%Q
                    else if c =? p then (0 # 1)%Q
                    else if c =? t then (1 - smoothing)%Q
                    else share)
          (seq 0 (cols td))).
  { unfold row. apply map_ext_in. intros c Hin. apply in_seq in Hin.
    rewrite Hat by lia.
    cbn [LabelSmoothing.padding_idx LabelSmoothing.confidence
         LabelSmoothing.smoothing LabelSmoothing.size self
         LabelSmoothing.with_true_dist LabelSmoothing.init].
    destruct (at1 target r =? padding_idx)%Z; [reflexivity|].
    subst p t.
    destruct (Z.eqb_spec (Z.of_nat c) padding_idx);
      destruct (Nat.eqb_spec c (Z.to_nat padding_idx)); try lia;
      [reflexivity|].
    destruct (Z.eqb_spec (Z.of_nat c) (at1 target r));
      destruct (Nat.eqb_spec c (Z.to_nat (at1 target r))); try lia;
      reflexivity. }
  rewrite Hrow.
  destruct (Z.eqb_spec (at1 target r) padding_idx) as [Heq|Hne].
  - rewrite qsum_const. ring.
  - assert (Hpt : p <> t) by (subst p t; lia).
    assert (Hcols' : Z.of_nat (cols td) = size) by (rewrite Hc; exact Hcols).
    rewrite (@qsum_update (fun c => if c =? t then (1 - smoothing)%Q
                                   else share) p (0 # 1)%Q 0 (cols td))
      by (subst p; lia).
    rewrite (@qsum_update (fun _ => share) t (1 - smoothing)%Q 0 (cols td))
      by (subst t; lia).
    rewrite qsum_const, Hcols'.
    destruct (Nat.eqb_spec p t); [contradiction|].
    replace size with ((size - 2) + 2)%Z at 1 by lia.
    rewrite inject_Z_plus. change (inject_Z 2) with 2%Q.
    subst share.
    assert (Hd : ~ (inject_Z (size - 2) == 0)%Q).
    { unfold Qeq, inject_Z. cbn. lia. }
    field. exact Hd.
Qed.

Lemma true_dist_row_sums_witness :
  exists td,
    LabelSmoothing.forward ex_KLDivLoss ex_x (of_list 0%Z [2%Z])
      (LabelSmoothing.init 5 0 (1 # 10)%Q)
    = (Ok (ex_KLDivLoss ex_x td),
       LabelSmoothing.set_true_dist td (LabelSmoothing.init 5 0 (1 # 10)%Q))
    /\ (qsum (row td 0) == 1)%Q.
Proof.
  destruct (@true_dist_row_sums ex_KLDivLoss 5%Z 0%Z (1 # 10)%Q None ex_x
              (of_list 0%Z [2%Z]))
    as (td & Hf & Hsum).
  - reflexivity.
  - lia.
  - reflexivity.
  - intros r Hlt. cbn in Hlt. destruct r as [|r]; [cbn; lia | lia].
  - lia.
  - exists td. split; [exact Hf|]. apply (Hsum 0). cbn. lia.
Defined.

(** ** SimpleLossCompute: the flattening of scores and labels *)

Lemma flat_index (L b i : nat) :
  i < L -> (b * L + i) / L = b /\ (b * L + i) mod L = i.
Proof.
  intros Hi. split; symmetry.
  - apply (Nat.div_unique (b * L + i) L b i); lia.
  - apply (Nat.mod_unique (b * L + i) L b i); lia.
Qed.

(** X10. When the projected output has the shape [B, L, V] with [V > 0]
    and the labels the shape [B, L], the two views that [__call__] hands
    to the criterion succeed and have as many rows as labels, and the
    row [b * L + i] of scores and the label [b * L + i] are those of
    position [i] of sentence [b]: flattening keeps every label with its
    scores. *)
Theorem flattening_keeps_alignment {A : Type} (x : t3 A) (y : t2 Z) :
  d2 x <> 0 -> d0 x = rows y -> d1 x = cols y ->
  exists x2,
    view_rows x = Ok x2
    /\ rows x2 = len (view_flat y)
    /\ cols x2 = d2 x
    /\ forall b i,
        b < rows y -> i < cols y ->
        get1 (view_flat y) (b * cols y + i) = Some (at2 y b i)
        /\ forall c, c < d2 x ->
             get2 x2 (b * cols y + i) c = Some (at3 x b i c).
Proof.
  intros HV HB HL. unfold view_rows.
  destruct (Nat.eqb_spec (d2 x) 0) as [|_]; [contradiction|].
  eexists. split; [reflexivity|]. cbn [rows cols len view_flat at2].
  split; [congruence|]. split; [reflexivity|].
  intros b i Hb Hi.
  destruct (flat_index b Hi) as [Hdiv Hmod].
  assert (Hlt : b * cols y + i < rows y * cols y) by nia.
  split.
  - unfold get1. cbn [len at1 view_flat].
    destruct (Nat.ltb_spec (b * cols y + i) (rows y * cols y)); [|lia].
    rewrite Hdiv, Hmod. reflexivity.
  - intros c Hc. unfold get2. cbn [rows cols at2].
    rewrite HB, HL.
    destruct (Nat.ltb_spec (b * cols y + i) (rows y * cols y)); [|lia].
    destruct (Nat.ltb_spec c (d2 x)); [|lia].
    cbn [andb]. rewrite Hdiv, Hmod. reflexivity.
Qed.

Lemma flattening_keeps_alignment_witness :
  exists x2,
    view_rows (mk3 2 3 5 (fun b i c => Z.of_nat (100 * b + 10 * i + c)))
    = Ok x2
    /\ get1 (view_flat (drop_last ex_tgt)) (1 * 3 + 2) = Some 2%Z
    /\ get2 x2 (1 * 3 + 2) 4 = Some 124%Z.
Proof.
  destruct (@flattening_keeps_alignment Z
              (mk3 2 3 5 (fun b i c => Z.of_nat (100 * b + 10 * i + c)))
              (drop_last ex_tgt))
    as (x2 & Hv & _ & _ & Hat).
  - cbn. lia.
  - reflexivity.
  - reflexivity.
  - exists x2. split; [exact Hv|].
    destruct (Hat 1 2) as [Hy Hx]; [cbn; lia | cbn; lia |].
    split; [exact Hy|]. apply (Hx 4). cbn. lia.
Defined.

(** ** run_epoch: every path through the loop *)

Lemma counters_le_refl (w : World) : counters_le w w.
Proof. unfold counters_le. lia. Qed.

Lemma counters_le_trans (w1 w2 w3 : World) :
  counters_le w1 w2 -> counters_le w2 w3 -> counters_le w1 w3.
Proof. unfold counters_le. lia. Qed.

Lemma check_steps_sound (evs : list Event) :
  forall (after_backward : bool) (pre post : list Event),
    check_steps after_backward evs = true ->
    evs = pre ++ optimizer_step :: post ->
    (pre = [] /\ after_backward = true
     \/ exists pre', pre = pre' ++ [loss_node_backward])
    /\ (exists post', post = optimizer_zero_grad :: post').
Proof.
  induction evs as [|e evs IH]; intros ab pre post Hcheck Heq.
  - destruct pre; discriminate.
  - destruct pre as [|e' pre]; cbn [app] in Heq; injection Heq as -> ->.
    + cbn [check_steps] in Hcheck.
      apply andb_true_iff in Hcheck. destruct Hcheck as [Hcheck _].
      apply andb_true_iff in Hcheck. destruct Hcheck as [Hab Hnext].
      split; [left; split; [reflexivity | exact Hab]|].
      destruct post as [|[] post]; try discriminate. eexists; reflexivity.
    + assert (Hrest : exists ab',
                check_steps ab' (pre ++ optimizer_step :: post) = true
                /\ (ab' = true -> e' = loss_node_backward)).
      { destruct e'; cbn [check_steps] in Hcheck;
          try (exists false; split; [exact Hcheck | discriminate]).
        - exists true. split; [exact Hcheck | reflexivity].
        - apply andb_true_iff in Hcheck. destruct Hcheck as [_ Hcheck].
          exists false. split; [exact Hcheck | discriminate]. }
      destruct Hrest as (ab' & Hcheck' & Hab').
      destruct (IH ab' pre post Hcheck' eq_refl) as [Hpre Hpost].
      split; [right | exact Hpost].
      destruct Hpre as [[-> Htrue] | (pre' & ->)].
      * exists []. rewrite (Hab' Htrue). reflexivity.
      * exists (e' :: pre'). reflexivity.
Qed.

Lemma step_discipline_checked (evs : list Event) :
  check_steps false evs = true -> step_discipline evs.
Proof.
  intros Hcheck pre post Heq.
  destruct (@check_steps_sound evs false pre post Hcheck Heq)
    as [Hpre Hpost].
  split; [|exact Hpost].
  destruct Hpre as [[_ Habs] | Hpre]; [discriminate | exact Hpre].
Qed.

Lemma step_discipline_app (l1 l2 : list Event) :
  step_discipline l1 -> step_discipline l2 -> step_discipline (l1 ++ l2).
Proof.
  intros H1 H2 pre post Heq. symmetry in Heq.
  apply app_eq_app in Heq. destruct Heq as (l & [[Hpre Hl2] | [Hl1 Hpost]]).
  - destruct (H2 l post Hl2) as [(pre' & ->) Hz].
    split; [|exact Hz]. exists (l1 ++ pre'). subst pre.
    apply app_assoc.
  - destruct l as [|e l]; cbn [app] in Hpost.
    + destruct (H2 [] post (eq_sym Hpost)) as [(pre' & Hnil) _].
      destruct pre'; discriminate.
    + injection Hpost as <- ->.
      destruct (H1 pre l Hl1) as [Hb (post' & ->)].
      split; [exact Hb|]. exists (post' ++ l2). reflexivity.
Qed.

Section RunEpochPaths.

Context {F : Type} `{Scalar F}.
Variable Out : Type.
Variable model_forward : t2 Z -> t2 Z -> t3 bool -> t3 bool -> Out.
Variable loss_compute : Out -> t2 Z -> Z -> t0 F * t0 F.

(** One batch, whatever the mode, the interval and the batch are. *)
Lemma loop_body_any (mode : string) (k i : Z) (b : Batch.t)
      (l : Locals) (w : World) :
  exists r w' evs,
    loop_body model_forward loss_compute mode k i b l w = (r, w')
    /\ trace w' = trace w ++ evs
    /\ step_discipline evs
    /\ counters_le w w'.
Proof.
  unfold loop_body, train_branch, pymod.
  cbv [bind getattr emit update_train_state modify ret raise].
  destruct w as [[st ac sa tk] tr]. unfold counters_le.
  destruct (Batch.tgt b) as [tgt|]; cbv beta iota.
  2:{ do 2 eexists. exists []. split; [reflexivity|]. cbn.
      rewrite app_nil_r. split; [reflexivity|].
      split; [apply step_discipline_checked; reflexivity | lia]. }
  destruct (Batch.tgt_mask b) as [tgt_mask|]; cbv beta iota.
  2:{ do 2 eexists. exists []. split; [reflexivity|]. cbn.
      rewrite app_nil_r. split; [reflexivity|].
      split; [apply step_discipline_checked; reflexivity | lia]. }
  destruct (Batch.tgt_y b) as [tgt_y|]; cbv beta iota.
  2:{ do 2 eexists. exists [model_forward_call].
      split; [reflexivity|]. cbn. split; [reflexivity|].
      split; [apply step_discipline_checked; reflexivity | lia]. }
  destruct (Batch.ntokens b) as [ntokens|]; cbv beta iota.
  2:{ do 2 eexists. exists [model_forward_call].
      split; [reflexivity|]. cbn. split; [reflexivity|].
      split; [apply step_discipline_checked; reflexivity | lia]. }
  destruct (loss_compute _ _ _) as [loss loss_node].
  destruct (is_train mode); cbv beta iota.
  2:{ rewrite andb_false_r. do 3 eexists. split; [reflexivity|].
      cbn [train_state trace TrainState.step TrainState.accum_step
           TrainState.samples].
      rewrite <- app_assoc. cbn [app]. split; [reflexivity|].
      split; [apply step_discipline_checked; reflexivity | lia]. }
  destruct (k =? 0)%Z; cbv beta iota.
  { do 3 eexists. split; [reflexivity|].
    cbn [train_state trace TrainState.step TrainState.accum_step
         TrainState.samples].
    rewrite <- !app_assoc. cbn [app]. split; [reflexivity|].
    split; [apply step_discipline_checked; reflexivity | lia]. }
  destruct (i mod k =? 0)%Z; destruct (i mod 40 =? 1)%Z;
    cbn [andb]; cbv beta iota;
    do 3 eexists; (split; [reflexivity|]);
    cbn [train_state trace TrainState.step TrainState.accum_step
         TrainState.samples];
    rewrite <- !app_assoc; cbn [app]; (split; [reflexivity|]);
    (split; [apply step_discipline_checked; reflexivity | lia]).
Qed.

Lemma for_each_any (mode : string) (k : Z) (bs : list Batch.t) :
  forall (i : Z) (l : Locals) (w : World),
  exists r w' evs,
    for_each model_forward loss_compute mode k i bs l w = (r, w')
    /\ trace w' = trace w ++ evs
    /\ step_discipline evs
    /\ counters_le w w'.
Proof.
  induction bs as [|b bs IH]; intros i l w.
  - exists (Ok l), w, []. rewrite app_nil_r.
    split; [reflexivity|]. split; [reflexivity|].
    split; [apply step_discipline_checked; reflexivity|].
    apply counters_le_refl.
  - destruct (loop_body_any mode k i b l w)
      as (r1 & w1 & evs1 & Hbody & Htr1 & Hd1 & Hc1).
    cbn [for_each]. unfold bind at 1. rewrite Hbody.
    destruct r1 as [l1|e].
    + destruct (IH (i + 1)%Z l1 w1)
        as (r2 & w2 & evs2 & Hrest & Htr2 & Hd2 & Hc2).
      exists r2, w2, (evs1 ++ evs2). rewrite Hrest.
      split; [reflexivity|].
      split; [rewrite Htr2, Htr1; symmetry; apply app_assoc|].
      split; [apply step_discipline_app; assumption|].
      eapply counters_le_trans; eassumption.
    + exists (Raise e), w1, evs1.
      split; [reflexivity|]. split; [exact Htr1|].
      split; assumption.
Qed.

(** The world that [run_epoch] leaves is the one the loop leaves. *)
Lemma run_epoch_world (mode : string) (k : Z) (bs : list Batch.t)
      (w : World) :
  snd (run_epoch model_forward loss_compute bs mode k w)
  = snd (for_each model_forward loss_compute mode k 0 bs locals_init w).
Proof.
  unfold run_epoch, bind, lift, get, ret.
  destruct (for_each _ _ _ _ _ _ _ _) as [[l'|e] w']; [|reflexivity].
  destruct (truediv _ _); reflexivity.
Qed.

End RunEpochPaths.

Lemma reports_app (tr tr' : list Event) :
  reports (tr ++ tr') = reports tr + reports tr'.
Proof. unfold reports. now rewrite filter_app, length_app. Qed.

Lemma reports_from_filter (a n : nat) :
  reports_from (Z.of_nat a) n
  = length (filter (fun i => (i mod 40 =? 1)%Z) (map Z.of_nat (seq a n))).
Proof.
  revert a. induction n as [|n IH]; intros a; cbn [reports_from seq map].
  - reflexivity.
  - replace (Z.of_nat a + 1)%Z with (Z.of_nat (S a)) by lia.
    rewrite IH. cbn [filter].
    destruct (Z.of_nat a mod 40 =? 1)%Z; reflexivity.
Qed.

(** The multiples of [k] below [n] are [ceil (n / k)] many. *)
Lemma update_indices_count (k : Z) (n : nat) :
  (1 <= k)%Z ->
  Z.of_nat (length (update_indices k n)) = ((Z.of_nat n + k - 1) / k)%Z.
Proof.
  intros Hk. unfold update_indices. induction n as [|n IH].
  - cbn. symmetry. apply Z.div_small. lia.
  - rewrite seq_S, map_app, filter_app, length_app, Nat2Z.inj_add, IH.
    cbn [Nat.add map filter].
    pose proof (Z.div_mod (Z.of_nat n) k ltac:(lia)) as Hdm.
    pose proof (Z.mod_pos_bound (Z.of_nat n) k ltac:(lia)) as Hr.
    set (q := (Z.of_nat n / k)%Z) in *.
    set (r := (Z.of_nat n mod k)%Z) in *.
    destruct (Z.eqb_spec r 0) as [Hr0|Hr0]; cbn [length].
    + rewrite <- (Z.div_unique (Z.of_nat n + k - 1) k q (k - 1)) by lia.
      rewrite <- (Z.div_unique (Z.of_nat (S n) + k - 1) k (q + 1) 0) by lia.
      lia.
    + rewrite <- (Z.div_unique (Z.of_nat n + k - 1) k (q + 1) (r - 1))
        by lia.
      rewrite <- (Z.div_unique (Z.of_nat (S n) + k - 1) k (q + 1) r) by lia.
      lia.
Qed.

Section RunEpochMore.

Context {F : Type} `{Scalar F}.
Variable Out : Type.
Variable model_forward : t2 Z -> t2 Z -> t3 bool -> t3 bool -> Out.
Variable loss_compute : Out -> t2 Z -> Z -> t0 F * t0 F.

(** The progress reports of one batch in a training mode. *)
Lemma loop_body_train_reports (mode : string) (k i : Z) (b : Batch.t)
      (l : Locals) (w : World) :
  is_train mode = true -> k <> 0%Z -> has_target b = true ->
  exists l' w',
    loop_body model_forward loss_compute mode k i b l w = (Ok l', w')
    /\ reports (trace w')
       = reports (trace w) + (if (i mod 40 =? 1)%Z then 1 else 0).
Proof.
  intros Hmode Hk Hb. unfold has_target in Hb.
  unfold loop_body, train_branch, pymod.
  destruct (Batch.tgt b) as [tgt|]; [|discriminate].
  destruct (Batch.tgt_y b) as [tgt_y|]; [|discriminate].
  destruct (Batch.tgt_mask b) as [tgt_mask|]; [|discriminate].
  destruct (Batch.ntokens b) as [ntokens|]; [|discriminate].
  rewrite Hmode.
  destruct (Z.eqb_spec k 0) as [|_]; [contradiction|].
  cbv [bind getattr emit update_train_state modify ret raise].
  cbv beta iota.
  destruct (loss_compute _ _ _) as [loss loss_node].
  destruct (i mod k =? 0)%Z; destruct (i mod 40 =? 1)%Z;
    cbn [andb train_state trace];
    do 2 eexists; (split; [reflexivity|]);
    cbn [train_state trace]; rewrite !reports_app; cbn; lia.
Qed.

Lemma for_each_train_reports (mode : string) (k : Z) (bs : list Batch.t) :
  is_train mode = true -> k <> 0%Z ->
  Forall (fun b => has_target b = true) bs ->
  forall (i : Z) (l : Locals) (w : World),
  exists l' w',
    for_each model_forward loss_compute mode k i bs l w = (Ok l', w')
    /\ reports (trace w')
       = reports (trace w) + reports_from i (length bs).
Proof.
  intros Hmode Hk Hall. induction Hall as [|b bs Hb Hbs IH]; intros i l w.
  - exists l, w. split; [reflexivity|]. cbn. lia.
  - destruct (@loop_body_train_reports mode k i b l w Hmode Hk Hb)
      as (l1 & w1 & Hbody & Hr1).
    destruct (IH (i + 1)%Z l1 w1) as (l2 & w2 & Hrest & Hr2).
    exists l2, w2. cbn [for_each]. unfold bind at 1.
    rewrite Hbody, Hrest. split; [reflexivity|].
    rewrite Hr2, Hr1. cbn [length reports_from]. lia.
Qed.

(** One batch in a mode that is not a training mode. *)
Lemma loop_body_other_mode (mode : string) (k i : Z) (b : Batch.t)
      (l : Locals) (w : World) :
  is_train mode = false ->
  exists r evs,
    loop_body model_forward loss_compute mode k i b l w
    = (r, mkWorld (train_state w) (trace w ++ evs))
    /\ forallb eval_event evs = true.
Proof.
  intros Hmode. unfold loop_body. rewrite Hmode.
  unfold bind, getattr, emit, modify, ret, raise.
  destruct w as [ts tr]. cbn [train_state trace].
  destruct (Batch.tgt b) as [tgt|].
  2:{ exists (Raise AttributeError), []. rewrite app_nil_r.
      split; reflexivity. }
  destruct (Batch.tgt_mask b) as [tgt_mask|].
  2:{ exists (Raise AttributeError), []. rewrite app_nil_r.
      split; reflexivity. }
  destruct (Batch.tgt_y b) as [tgt_y|].
  2:{ exists (Raise AttributeError), [model_forward_call]. split; reflexivity. }
  destruct (Batch.ntokens b) as [ntokens|].
  2:{ exists (Raise AttributeError), [model_forward_call]. split; reflexivity. }
  destruct (loss_compute _ _ _) as [loss loss_node].
  rewrite andb_false_r. cbn [train_state trace].
  eexists. exists [model_forward_call; loss_compute_call].
  rewrite <- app_assoc. cbn [app]. split; reflexivity.
Qed.

Lemma for_each_other_mode (mode : string) (k : Z) (bs : list Batch.t) :
  is_train mode = false ->
  forall (i : Z) (l : Locals) (w : World),
  exists r evs,
    for_each model_forward loss_compute mode k i bs l w
    = (r, mkWorld (train_state w) (trace w ++ evs))
    /\ forallb eval_event evs = true.
Proof.
  intros Hmode. induction bs as [|b bs IH]; intros i l w.
  - exists (Ok l), []. rewrite app_nil_r. destruct w. split; reflexivity.
  - destruct (@loop_body_other_mode mode k i b l w Hmode)
      as (r1 & evs1 & Hbody & He1).
    cbn [for_each]. unfold bind at 1. rewrite Hbody.
    destruct r1 as [l1|e].
    + destruct (IH (i + 1)%Z l1 (mkWorld (train_state w) (trace w ++ evs1)))
        as (r2 & evs2 & Hrest & He2).
      exists r2, (evs1 ++ evs2). rewrite Hrest. cbn [train_state trace].
      rewrite app_assoc. split; [reflexivity|].
      rewrite forallb_app, He1, He2. reflexivity.
    + exists (Raise e), evs1. split; [reflexivity | exact He1].
Qed.

End RunEpochMore.

Lemma is_train_false (mode : string) :
  mode <> "train"%string -> mode <> "train+log"%string ->
  is_train mode = false.
Proof.
  intros H1 H2. unfold is_train.
  destruct (String.eqb_spec mode "train"); [contradiction|].
  destruct (String.eqb_spec mode "train+log"); [contradiction|].
  reflexivity.
Qed.

Lemma eval_events_no_report (evs : list Event) :
  forallb eval_event evs = true -> reports evs = 0.
Proof.
  unfold reports. induction evs as [|e evs IH]; cbn [forallb filter].
  - reflexivity.
  - intros Hall. apply andb_true_iff in Hall. destruct Hall as [He Hall].
    destruct e; try discriminate; cbn [is_report]; auto.
Qed.

(** X2. A batch built without a target has none of the four target
    fields, and [run_epoch] cannot process it in any mode: on a sequence
    that starts with such a batch it raises the attribute error before
    any call to the model and without touching the [TrainState]. *)
Theorem batch_without_target_is_refused
        (F : Type) (SF : Scalar F) (Out : Type)
        (model_forward : t2 Z -> t2 Z -> t3 bool -> t3 bool -> Out)
        (loss_compute : Out -> t2 Z -> Z -> t0 F * t0 F)
        (src : t2 Z) (pad : Z) (rest : list Batch.t)
        (mode : string) (k : Z) (w : World) :
  exists batch,
    Batch.init src None pad = Ok batch
    /\ (Batch.tgt batch, Batch.tgt_y batch,
        Batch.tgt_mask batch, Batch.ntokens batch) = (None, None, None, None)
    /\ run_epoch model_forward loss_compute (batch :: rest) mode k w
       = (Raise AttributeError, w).
Proof.
  eexists. split; [reflexivity|]. split; reflexivity.
Qed.

(** X11. In a training mode, over batches that carry their target and
    with a non-zero accumulation interval, [run_epoch] adds the number
    of batches to [step], the sum of the batch sizes to [samples], runs
    one backward pass per batch and clears the gradients as often as it
    steps the optimizer; over at least one batch it returns, with the
    [TrainState] it was given. *)
Theorem train_epoch_counters
        (F : Type) (SF : Scalar F) (Out : Type)
        (model_forward : t2 Z -> t2 Z -> t3 bool -> t3 bool -> Out)
        (loss_compute : Out -> t2 Z -> Z -> t0 F * t0 F)
        (bs : list Batch.t) (mode : string) (k : Z) (w : World) :
  mode = "train"%string \/ mode = "train+log"%string ->
  k <> 0%Z ->
  Forall (fun b => has_target b = true) bs ->
  let w' := snd (run_epoch model_forward loss_compute bs mode k w) in
  TrainState.step (train_state w')
  = (TrainState.step (train_state w) + Z.of_nat (length bs))%Z
  /\ TrainState.samples (train_state w')
     = (TrainState.samples (train_state w) + total_batch_size bs)%Z
  /\ calls loss_node_backward (trace w')
     = calls loss_node_backward (trace w) + length bs
  /\ (exists u,
         calls optimizer_step (trace w') = calls optimizer_step (trace w) + u
         /\ calls optimizer_zero_grad (trace w')
            = calls optimizer_zero_grad (trace w) + u)
  /\ (bs <> [] ->
      exists mean,
        run_epoch model_forward loss_compute bs mode k w
        = (Ok (mean, train_state w'), w')).
Proof.
  intros Hmode Hk Hall w'. subst w'.
  destruct (@run_epoch_train F SF Out model_forward loss_compute mode k bs w
              (is_train_modes Hmode) Hk Hall)
    as (w' & -> & Hp & Hret).
  destruct Hp as (Hs & _ & Hsa & Hb & Ho & Hz & _).
  split; [exact Hs|]. split; [exact Hsa|]. split; [exact Hb|].
  split; [eexists; split; eassumption | exact Hret].
Qed.

Lemma train_epoch_counters_witness :
  let w' := snd (run_epoch ex_model ex_loss_compute ex_batches "train+log" 3
                   ex_world) in
  TrainState.step (train_state w') = 5%Z
  /\ TrainState.samples (train_state w') = 10%Z
  /\ calls loss_node_backward (trace w') = 5
  /\ exists mean,
       run_epoch ex_model ex_loss_compute ex_batches "train+log" 3 ex_world
       = (Ok (mean, train_state w'), w').
Proof.
  destruct (@train_epoch_counters Q Scalar_Q unit ex_model ex_loss_compute
              ex_batches "train+log" 3%Z ex_world)
    as (Hs & Hsa & Hb & _ & Hret).
  - right; reflexivity.
  - lia.
  - repeat constructor.
  - split; [exact Hs|]. split; [exact Hsa|]. split; [exact Hb|].
    apply Hret. discriminate.
Defined.

(** X12. With [accum_iter = 0] a training epoch fails on its first
    batch, at [i % accum_iter]: the division error is raised after the
    backward pass and after [step], [samples] and [tokens] have been
    advanced for that batch, and before any optimizer or scheduler
    step. *)
Theorem zero_accum_iter_fails_after_backward
        (F : Type) (SF : Scalar F) (Out : Type)
        (model_forward : t2 Z -> t2 Z -> t3 bool -> t3 bool -> Out)
        (loss_compute : Out -> t2 Z -> Z -> t0 F * t0 F)
        (b : Batch.t) (rest : list Batch.t) (mode : string) (w : World)
        (ntokens : Z) :
  mode = "train"%string \/ mode = "train+log"%string ->
  has_target b = true ->
  Batch.ntokens b = Some ntokens ->
  run_epoch model_forward loss_compute (b :: rest) mode 0 w
  = (Raise ZeroDivisionError,
     mkWorld
       (TrainState.mk
          (TrainState.step (train_state w) + 1)
          (TrainState.accum_step (train_state w))
          (TrainState.samples (train_state w)
           + Z.of_nat (rows (Batch.src b)))
          (iadd_int (TrainState.tokens (train_state w)) ntokens))
       (trace w ++ [model_forward_call; loss_compute_call;
                    loss_node_backward])).
Proof.
  intros Hmode Hb Hn. apply is_train_modes in Hmode.
  unfold has_target in Hb.
  unfold run_epoch. cbn [for_each]. unfold loop_body, train_branch, pymod.
  rewrite Hn in *.
  destruct (Batch.tgt b) as [tgt|]; [|discriminate].
  destruct (Batch.tgt_y b) as [tgt_y|]; [|discriminate].
  destruct (Batch.tgt_mask b) as [tgt_mask|]; [|discriminate].
  rewrite Hmode.
  cbv [bind getattr emit update_train_state modify ret raise].
  cbv beta iota.
  destruct (loss_compute _ _ _) as [loss loss_node].
  cbn [Z.eqb train_state trace TrainState.step TrainState.accum_step
       TrainState.samples TrainState.tokens].
  rewrite <- !app_assoc. reflexivity.
Qed.

Lemma zero_accum_iter_fails_after_backward_witness :
  exists ts,
    run_epoch ex_model ex_loss_compute ex_batches "train" 0 ex_world
    = (Raise ZeroDivisionError,
       mkWorld ts [model_forward_call; loss_compute_call;
                   loss_node_backward])
    /\ TrainState.step ts = 1%Z
    /\ TrainState.accum_step ts = 0%Z
    /\ TrainState.samples ts = 2%Z.
Proof.
  eexists. split.
  - apply (@zero_accum_iter_fails_after_backward Q Scalar_Q unit ex_model
             ex_loss_compute ex_batch (repeat ex_batch 4) "train" ex_world
             4%Z).
    + left; reflexivity.
    + reflexivity.
    + reflexivity.
  - repeat split.
Defined.

(** X13. In a training mode, over [N] batches that carry their target
    and with [accum_iter = k >= 1], [accum_step] grows by the ceiling of
    [N / k]. *)
Theorem accum_step_growth_is_ceiling
        (F : Type) (SF : Scalar F) (Out : Type)
        (model_forward : t2 Z -> t2 Z -> t3 bool -> t3 bool -> Out)
        (loss_compute : Out -> t2 Z -> Z -> t0 F * t0 F)
        (bs : list Batch.t) (mode : string) (k : Z) (w : World) :
  mode = "train"%string \/ mode = "train+log"%string ->
  (1 <= k)%Z ->
  Forall (fun b => has_target b = true) bs ->
  let w' := snd (run_epoch model_forward loss_compute bs mode k w) in
  TrainState.accum_step (train_state w')
  = (TrainState.accum_step (train_state w)
     + (Z.of_nat (length bs) + k - 1) / k)%Z.
Proof.
  intros Hmode Hk Hall w'. subst w'.
  destruct (@run_epoch_train F SF Out model_forward loss_compute mode k bs w
              (is_train_modes Hmode) ltac:(lia) Hall)
    as (w' & -> & Hp & _).
  destruct Hp as (_ & Ha & _).
  rewrite Ha, updates_from_indices, update_indices_count by exact Hk.
  reflexivity.
Qed.

Lemma accum_step_growth_is_ceiling_witness :
  TrainState.accum_step
    (train_state
       (snd (run_epoch ex_model ex_loss_compute ex_batches "train" 2
               ex_world)))
  = (0 + (5 + 2 - 1) / 2)%Z.
Proof.
  apply (@accum_step_growth_is_ceiling Q Scalar_Q unit ex_model
           ex_loss_compute ex_batches "train" 2%Z ex_world).
  - left; reflexivity.
  - lia.
  - repeat constructor.
Defined.

(** X14. In every call of [run_epoch], whatever the mode, the interval
    and the batches are and whether it returns or raises, each
    [optimizer.step] it makes comes directly after a backward pass and
    directly before [optimizer.zero_grad]. *)
Theorem optimizer_step_discipline
        (F : Type) (SF : Scalar F) (Out : Type)
        (model_forward : t2 Z -> t2 Z -> t3 bool -> t3 bool -> Out)
        (loss_compute : Out -> t2 Z -> Z -> t0 F * t0 F)
        (bs : list Batch.t) (mode : string) (k : Z) (w : World) :
  exists evs,
    trace (snd (run_epoch model_forward loss_compute bs mode k w))
    = trace w ++ evs
    /\ step_discipline evs.
Proof.
  rewrite run_epoch_world.
  destruct (for_each_any model_forward loss_compute mode k bs 0%Z
              locals_init w)
    as (r & w' & evs & Hloop & Htr & Hd & _).
  rewrite Hloop. exists evs. split; assumption.
Qed.

(** X15. In every call of [run_epoch], whether it returns or raises,
    [step], [accum_step] and [samples] do not decrease, and [accum_step]
    grows by no more than [step] does. *)
Theorem counters_never_decrease
        (F : Type) (SF : Scalar F) (Out : Type)
        (model_forward : t2 Z -> t2 Z -> t3 bool -> t3 bool -> Out)
        (loss_compute : Out -> t2 Z -> Z -> t0 F * t0 F)
        (bs : list Batch.t) (mode : string) (k : Z) (w : World) :
  counters_le w (snd (run_epoch model_forward loss_compute bs mode k w)).
Proof.
  rewrite run_epoch_world.
  destruct (for_each_any model_forward loss_compute mode k bs 0%Z
              locals_init w)
    as (r & w' & evs & Hloop & _ & _ & Hc).
  rewrite Hloop. exact Hc.
Qed.

(** X16. In a training mode, over batches that carry their target and
    with a non-zero accumulation interval, [run_epoch] prints one
    progress report for every batch index below the number of batches
    that is 1 modulo 40. *)
Theorem progress_report_cadence
        (F : Type) (SF : Scalar F) (Out : Type)
        (model_forward : t2 Z -> t2 Z -> t3 bool -> t3 bool -> Out)
        (loss_compute : Out -> t2 Z -> Z -> t0 F * t0 F)
        (bs : list Batch.t) (mode : string) (k : Z) (w : World) :
  mode = "train"%string \/ mode = "train+log"%string ->
  k <> 0%Z ->
  Forall (fun b => has_target b = true) bs ->
  reports (trace (snd (run_epoch model_forward loss_compute bs mode k w)))
  = reports (trace w) + length (report_indices (length bs)).
Proof.
  intros Hmode Hk Hall. rewrite run_epoch_world.
  destruct (@for_each_train_reports F SF Out model_forward loss_compute
              mode k bs (is_train_modes Hmode) Hk Hall 0%Z locals_init w)
    as (l' & w' & Hloop & Hr).
  rewrite Hloop. cbn [snd]. rewrite Hr.
  f_equal. apply (reports_from_filter 0 (length bs)).
Qed.

Lemma progress_report_cadence_witness :
  reports
    (trace (snd (run_epoch ex_model ex_loss_compute ex_batches "train" 2
                   ex_world)))
  = 0 + 1.
Proof.
  apply (@progress_report_cadence Q Scalar_Q unit ex_model ex_loss_compute
           ex_batches "train" 2%Z ex_world).
  - left; reflexivity.
  - lia.
  - repeat constructor.
Defined.

(** X17. Every mode other than "train" and "train+log" is run as an
    evaluation, without any complaint about the mode: the [TrainState]
    is left as it is, and the only calls are those of the model and of
    the loss computation, with no progress report. *)
Theorem other_modes_evaluate
        (F : Type) (SF : Scalar F) (Out : Type)
        (model_forward : t2 Z -> t2 Z -> t3 bool -> t3 bool -> Out)
        (loss_compute : Out -> t2 Z -> Z -> t0 F * t0 F)
        (bs : list Batch.t) (mode : string) (k : Z) (w : World) :
  mode <> "train"%string -> mode <> "train+log"%string ->
  exists r evs,
    run_epoch model_forward loss_compute bs mode k w
    = (r, mkWorld (train_state w) (trace w ++ evs))
    /\ forallb eval_event evs = true
    /\ reports evs = 0.
Proof.
  intros H1 H2.
  destruct (@for_each_other_mode F SF Out model_forward loss_compute
              mode k bs (is_train_false H1 H2) 0%Z locals_init w)
    as (r & evs & Hloop & Hev).
  unfold run_epoch, bind at 1. rewrite Hloop.
  destruct r as [l'|e].
  - unfold bind, lift, get, ret.
    destruct (truediv (total_loss l') (total_tokens l')) as [m|e];
      eexists; exists evs; (split; [reflexivity|]);
      (split; [exact Hev | apply eval_events_no_report; exact Hev]).
  - exists (Raise e), evs. split; [reflexivity|].
    split; [exact Hev | apply eval_events_no_report; exact Hev].
Qed.

Lemma other_modes_evaluate_witness :
  exists r evs,
    run_epoch ex_model ex_loss_compute ex_batches "Train" 2 ex_world
    = (r, mkWorld TrainState.init evs)
    /\ forallb eval_event evs = true
    /\ reports evs = 0.
Proof.
  apply (@other_modes_evaluate Q Scalar_Q unit ex_model ex_loss_compute
           ex_batches "Train" 2%Z ex_world); discriminate.
Defined.
